(** * ueGear: a shallow embedding of [helpers.py] and [assets.py]

    The Python helpers of the ueGear Unreal plugin are modelled as Rocq
    functions.  Pure helpers become plain functions into a [result]
    type (a value or a raised Python exception); helpers that talk to the
    Unreal editor or to the file system thread an explicit state (the
    host and the Unreal output log) through a small state-and-exception
    monad.  The host API itself ([unreal.*], [os], [json]) is an
    interface: a type class whose instances are possible hosts. *)

From Stdlib Require Import ZArith Lia Ascii DecimalString PrimFloat.
From stdpp Require Import base option list strings gmap.

Set Warnings "-register-all".
Open Scope Z_scope.

(** ** Python values, exceptions and results *)

(** The exception classes the helpers can meet.  Under Python 3 [IOError]
    is an alias of [OSError]; [FileNotFoundError] and [PermissionError]
    are subclasses of it, [JSONDecodeError] is a subclass of
    [ValueError], and [KeyboardInterrupt] derives from [BaseException]
    only. *)
Inductive exn : Type :=
  | AttributeError
  | IndexError
  | TypeError
  | ValueError
  | JSONDecodeError
  | OSError
  | FileNotFoundError
  | PermissionError
  | KeyboardInterrupt.

(** [isinstance(e, IOError)] *)
Definition is_IOError (e : exn) : bool :=
  match e with
  | OSError | FileNotFoundError | PermissionError => true
  | _ => false
  end.

(** [isinstance(e, Exception)] *)
Definition is_Exception (e : exn) : bool :=
  match e with
  | KeyboardInterrupt => false
  | _ => true
  end.

Inductive result (A : Type) : Type :=
  | Ret (a : A)
  | Raise (e : exn).
Arguments Ret {A} a.
Arguments Raise {A} e.

(** Plain Python data: what the option dictionaries and the JSON files
    of the plugin hold.  A dictionary keeps its items in insertion
    order. *)
Inductive pyval : Type :=
  | VNone
  | VBool (b : bool)
  | VInt (z : Z)
  | VStr (s : string)
  | VList (l : list pyval)
  | VSet (l : list pyval)
  | VDict (items : list (string * pyval)).

(** Truth value of a Python object, as [if v], [v or d] and [not v] use it. *)
Definition truthy (v : pyval) : bool :=
  match v with
  | VNone => false
  | VBool b => b
  | VInt z => negb (z =? 0)
  | VStr s => negb (String.eqb s EmptyString)
  | VList l | VSet l => negb (Nat.eqb (length l) 0)
  | VDict d => negb (Nat.eqb (length d) 0)
  end.

(** The double-quote character, as a string. *)
Definition dquote : string :=
  String (Ascii.Ascii false true false false false true false false) EmptyString.

(** [str(i)] for an integer. *)
Definition str_int (i : Z) : string := NilZero.string_of_int (Z.to_int i).

(** ** The Unreal output log *)

Inductive log_entry : Type :=
  | Log (msg : string)
  | LogWarning (msg : string)
  | LogError (msg : string).

(** ** Sequences: [list_arg[index]], [len], truth value *)

Module Py.

(** [l[i]]: a negative index counts from the end; anything outside
    [-len(l) <= i < len(l)] raises [IndexError]. *)
Definition getitem {A} (l : list A) (i : Z) : result A :=
  let n := Z.of_nat (length l) in
  let j := if i <? 0 then n + i else i in
  if (0 <=? j) && (j <? n)
  then match l !! Z.to_nat j with
       | Some x => Ret x
       | None => Raise IndexError
       end
  else Raise IndexError.

Definition len {A} (l : list A) : Z := Z.of_nat (length l).

(** Truth value of a list: non-empty. *)
Definition list_truthy {A} (l : list A) : bool :=
  match l with [] => false | _ :: _ => true end.

(** [i] is a valid index of [l]. *)
Definition in_range {A} (l : list A) (i : Z) : Prop :=
  - len l <= i < len l.

End Py.

(** ** helpers.py: list helpers *)

(** [return list_arg[index] if list_arg and len(list_arg) > abs(index) else default] *)
Definition get_index_in_list {A} (list_arg : list A) (index : Z) (default : A)
  : result A :=
  if Py.list_truthy list_arg && (Py.len list_arg >? Z.abs index)
  then Py.getitem list_arg index
  else Ret default.

(** [return get_index_in_list(list_arg, 0, default=default)] *)
Definition get_first_in_list {A} (list_arg : list A) (default : A) : result A :=
  get_index_in_list list_arg 0 default.

(** ** helpers.py: [create_folder]

    The content browser is reached through two calls of
    [unreal.EditorAssetLibrary]: the existence check and the creation of
    a directory.  A host is anything that answers them. *)

Class DirectoryHost (H : Type) : Type := {
  does_directory_exist : H -> string -> bool;
  make_directory : H -> string -> H
}.

(** ['{}/{}'.format(root, name)] *)
Definition format_path (root name : string) : string :=
  root +:+ "/" +:+ name.

(** The [while True] loop of [create_folder], with the number of
    iterations it may still run; [None] when they are used up before
    the [break].  The result is the loop's final [name] and the host
    after [make_directory]. *)
Fixpoint create_folder_loop {H} `{DirectoryHost H}
    (fuel : nat) (h : H) (root name : string) (index : Z) : option (string * H) :=
  match fuel with
  | O => None
  | S fuel' =>
      if negb (does_directory_exist h (format_path root name))
      then Some (name, make_directory h (format_path root name))
      else create_folder_loop fuel' h root (name +:+ str_int index) (index + 1)
  end.

Definition create_folder {H} `{DirectoryHost H}
    (fuel : nat) (h : H) (root name : string) : option (string * H) :=
  match create_folder_loop fuel h root name 1 with
  | Some (name', h') => Some (format_path root name', h')
  | None => None
  end.

(** The value of the loop variable [name] at the start of iteration [k]
    (iteration 0 is the first), when the loop was entered with [name]
    and [index]: each retry runs [name = '{}{}'.format(name, index)] and
    [index += 1]. *)
Fixpoint candidate (name : string) (index : Z) (k : nat) : string :=
  match k with
  | O => name
  | S k' => candidate (name +:+ str_int index) (index + 1) k'
  end.

(** A content browser given by the finite set of its directories. *)
#[global] Instance gset_directory_host : DirectoryHost (gset string) := {|
  does_directory_exist dirs path := bool_decide (path ∈ dirs);
  make_directory dirs path := {[path]} ∪ dirs
|}.

(** An existence check that reports a collision for every path. *)
Inductive crowded_host : Type := Crowded.

#[global] Instance crowded_directory_host : DirectoryHost crowded_host := {|
  does_directory_exist _ _ := true;
  make_directory h _ := h
|}.

(** ** The result monad *)

#[global] Instance result_ret : MRet result := fun A a => Ret a.
#[global] Instance result_bind : MBind result := fun A B f m =>
  match m with
  | Ret a => f a
  | Raise e => Raise e
  end.

(** ** helpers.py: [convert_maya_transforms_into_unreal_transforms] *)

(** [unreal.Vector(x, y, z)] *)
Record Vector : Type := mkVector { vx : float; vy : float; vz : float }.

(** [unreal.Rotator(roll, pitch, yaw)], in the positional order of the
    constructor. *)
Record Rotator : Type := mkRotator { roll : float; pitch : float; yaw : float }.

(** [v or d] for a list argument that may be [None]: [None] and the empty
    list are false. *)
Definition or_default (v : option (list float)) (d : list float) : list float :=
  match v with
  | Some (x :: l) => x :: l
  | _ => d
  end.

Definition convert_maya_transforms_into_unreal_transforms
    (translation rotation scale : option (list float))
  : result (Vector * Rotator * Vector) :=
  let maya_translation := or_default translation [0; 0; 0]%float in
  let maya_rotation := or_default rotation [0; 0; 0]%float in
  let maya_scale := or_default scale [1; 1; 1]%float in
  t0 ← Py.getitem maya_translation 0;
  t2 ← Py.getitem maya_translation 2;
  t1 ← Py.getitem maya_translation 1;
  let unreal_translation := mkVector t0 t2 t1 in
  r0 ← Py.getitem maya_rotation 0;
  r2 ← Py.getitem maya_rotation 2;
  r1 ← Py.getitem maya_rotation 1;
  let unreal_rotation := mkRotator r0 r2 (r1 * -1)%float in
  s0 ← Py.getitem maya_scale 0;
  s2 ← Py.getitem maya_scale 2;
  s1 ← Py.getitem maya_scale 1;
  let unreal_scale := mkVector s0 s2 s1 in
  mret (unreal_translation, unreal_rotation, unreal_scale).

(** The three components of the host objects, to feed a converted
    transform to the conversion again. *)
Definition vector_components (v : Vector) : list float := [vx v; vy v; vz v].
Definition rotator_components (r : Rotator) : list float := [roll r; pitch r; yaw r].

Definition convert_twice (translation rotation scale : list float)
  : result (Vector * Rotator * Vector) :=
  '(t, r, s) ← convert_maya_transforms_into_unreal_transforms
                 (Some translation) (Some rotation) (Some scale);
  convert_maya_transforms_into_unreal_transforms
    (Some (vector_components t)) (Some (rotator_components r))
    (Some (vector_components s)).

(** A rotation with one of its three components negated. *)
Inductive axis : Type := Axis0 | Axis1 | Axis2.

Definition negate_axis (a : axis) (r : Rotator) : Rotator :=
  match a with
  | Axis0 => mkRotator (roll r * -1)%float (pitch r) (yaw r)
  | Axis1 => mkRotator (roll r) (pitch r * -1)%float (yaw r)
  | Axis2 => mkRotator (roll r) (pitch r) (yaw r * -1)%float
  end.

(** ** Dictionaries

    A Python [dict] as the list of its items, in insertion order; a key
    occurs at most once in a dictionary built by Python. *)

Abbreviation dict := (list (string * pyval)).

Fixpoint dict_get (key : string) (d : dict) : option pyval :=
  match d with
  | [] => None
  | (k, v) :: d' => if String.eqb key k then Some v else dict_get key d'
  end.

(** The dictionary without the item stored under [key]. *)
Definition dict_remove (key : string) (d : dict) : dict :=
  filter (fun kv => kv.1 <> key) d.

(** [d.pop(key, default)]: the value and the dictionary left behind. *)
Definition dict_pop (key : string) (default : pyval) (d : dict) : pyval * dict :=
  (match dict_get key d with Some v => v | None => default end,
   dict_remove key d).

(** ** Stateful helpers: host state and output log *)

Record state (W : Type) : Type := mkState {
  host : W;
  output_log : list log_entry
}.
Arguments mkState {W} host output_log.
Arguments host {W} s.
Arguments output_log {W} s.

(** A computation that reads and updates the state and returns a value
    or raises. *)
Definition M (W A : Type) : Type := state W -> result A * state W.

#[global] Instance M_ret {W} : MRet (M W) := fun A a st => (Ret a, st).
#[global] Instance M_bind {W} : MBind (M W) := fun A B f m st =>
  match m st with
  | (Ret a, st') => f a st'
  | (Raise e, st') => (Raise e, st')
  end.

(** [raise e] *)
Definition raise {W A} (e : exn) : M W A := fun st => (Raise e, st).

Definition log_line {W} (entry : log_entry) : M W unit :=
  fun st => (Ret tt, mkState (host st) (output_log st ++ [entry])).

(** [unreal.log], [unreal.log_warning], [unreal.log_error] *)
Definition unreal_log {W} (msg : string) : M W unit := log_line (Log msg).
Definition unreal_log_warning {W} (msg : string) : M W unit := log_line (LogWarning msg).
Definition unreal_log_error {W} (msg : string) : M W unit := log_line (LogError msg).

(** A host call that may change the host, and one that only reads it. *)
Definition call_host {W A} (f : W -> result A * W) : M W A :=
  fun st => let '(r, w) := f (host st) in (r, mkState w (output_log st)).
Definition query_host {W A} (f : W -> result A) : M W A :=
  fun st => (f (host st), st).

(** [try: body  except <class> as err: handler(err)]; [catches] is the
    [isinstance] test of the [except] clause. *)
Definition try_except {W A} (body : M W A) (catches : exn -> bool)
    (handler : exn -> M W A) : M W A :=
  fun st =>
    match body st with
    | (Raise e, st') => if catches e then handler e st' else (Raise e, st')
    | (Ret a, st') => (Ret a, st')
    end.

(** Computations that leave the host as it was (they may log). *)
Definition keeps_host {W A} (m : M W A) : Prop :=
  forall st, host (m st).2 = host st.

(** ** helpers.py: JSON files

    The file system and the [json] module are the host here.  The three
    calls the helpers make are its interface: [os.stat(filename).st_size],
    the block [with open(filename, 'r') as json_file: json.load(json_file, ...)]
    and the block
    [with open(filename, 'w') as json_file: json.dump(data, json_file, indent=indent, **kwargs)]. *)

Class FileHost (W : Type) : Type := {
  stat_size : string -> W -> result Z;
  load_json : string -> bool -> W -> result pyval;
  dump_json : pyval -> string -> pyval -> dict -> W -> result unit * W
}.

Definition read_json_file {W} `{FileHost W}
    (filename : string) (maintain_order : bool) : M W pyval :=
  size ← query_host (stat_size filename);
  if size =? 0 then mret VNone
  else
    data ← try_except
             (query_host (load_json filename maintain_order))
             is_Exception
             (fun err =>
                unreal_log_warning ("Could not read " +:+ filename);;
                raise err);
    mret data.

Definition write_to_json_file {W} `{FileHost W}
    (data : pyval) (filename : string) (kwargs : dict) : M W pyval :=
  let '(indent, kwargs) := dict_pop "indent" (VInt 4) kwargs in
  (* the [except] clause returns from the function: [Some] is that
     return value, [None] falls through to the code after the [try] *)
  returned ← try_except
               (call_host (dump_json data filename indent kwargs);; mret None)
               is_IOError
               (fun _ =>
                  unreal_log_error ("Data not saved to file " +:+ filename);;
                  mret (Some VNone));
  match returned with
  | Some v => mret v
  | None =>
      unreal_log ("File correctly saved to: " +:+ filename);;
      mret (VStr filename)
  end.

(** *** A file system in memory

    A file is empty, holds a JSON document, or holds text that is not
    JSON; files in [locked] can be neither read nor written.  The size
    of a file is abstracted to 0 (empty) or 1 (not empty): the helpers
    only compare it with 0. *)

Inductive file_content : Type :=
  | EmptyFile
  | JsonFile (document : pyval)
  | TextFile.

Record disk : Type := mkDisk {
  files : gmap string file_content;
  locked : gset string
}.

(** What [json.dump] accepts: a set is not JSON serializable. *)
Fixpoint json_serializable (v : pyval) : bool :=
  match v with
  | VNone | VBool _ | VInt _ | VStr _ => true
  | VList l => forallb json_serializable l
  | VSet _ => false
  | VDict items => forallb (fun '(_, v') => json_serializable v') items
  end.

#[global] Instance disk_file_host : FileHost disk := {|
  stat_size filename d :=
    match files d !! filename with
    | None => Raise FileNotFoundError
    | Some EmptyFile => Ret 0
    | Some _ => Ret 1
    end;
  load_json filename _ d :=
    match files d !! filename with
    | None => Raise FileNotFoundError
    | Some content =>
        if bool_decide (filename ∈ locked d) then Raise PermissionError
        else match content with
             | JsonFile document => Ret document
             | _ => Raise JSONDecodeError
             end
    end;
  dump_json data filename _ _ d :=
    if bool_decide (filename ∈ locked d) then (Raise PermissionError, d)
    else if json_serializable data
         then (Ret tt, mkDisk (<[filename := JsonFile data]> (files d)) (locked d))
         else (Raise TypeError, mkDisk (<[filename := EmptyFile]> (files d)) (locked d))
|}.

(** ** helpers.py: level sequences

    The editor owns the assets.  A level sequence has object bindings
    (each with a name, a display name, tracks and possibly a parent
    binding) and master tracks; Python holds references to them, here
    the asset's name, a binding's id and a track's id, and every method
    call reads or updates the editor's state. *)

Inductive track_class : Type :=
  | MovieSceneSubTrack
  | MovieSceneCameraCutTrack
  | MovieScene3DTransformTrack.

#[global] Instance track_class_eq_dec : EqDecision track_class.
Proof. solve_decision. Defined.

Record Track : Type := mkTrack {
  track_id : nat;
  get_class : track_class;
  get_sections : list string
}.

Record Binding : Type := mkBinding {
  binding_id : nat;
  get_name : string;
  get_display_name : string;
  binding_parent : option nat;
  get_tracks : list Track
}.

Record LevelSequence : Type := mkLevelSequence {
  get_bindings : list Binding;
  get_master_tracks : list Track
}.

Inductive asset : Type :=
  | SequenceAsset (sequence : LevelSequence)
  | OtherAsset (class_name : string).

(** Editor-wide calls that are not methods of a sequence. *)
Inductive editor_call : Type :=
  | CloseLevelSequence
  | RefreshCurrentLevelSequence
  | SaveLoadedAsset (name : string).

Record editor : Type := mkEditor {
  assets : gmap string asset;
  editor_calls : list editor_call
}.

(** [unreal.load_asset(name)]: the asset, or [None]. *)
Definition load_asset (name : string) : M editor (option asset) :=
  query_host (fun ed => Ret (assets ed !! name)).

(** A method of [unreal.LevelSequence] called on a loaded asset. *)
Definition as_sequence (a : asset) : M editor LevelSequence :=
  match a with
  | SequenceAsset sequence => mret sequence
  | OtherAsset _ => raise AttributeError
  end.

Definition editor_do (c : editor_call) : M editor unit :=
  call_host (fun ed => (Ret tt, mkEditor (assets ed) (editor_calls ed ++ [c]))).

(** Apply [f] to the sequence stored under [name]. *)
Definition update_sequence (name : string) (f : LevelSequence -> LevelSequence)
  : M editor unit :=
  call_host (fun ed =>
    (Ret tt,
     mkEditor
       (alter (fun a => match a with
                        | SequenceAsset sequence => SequenceAsset (f sequence)
                        | OtherAsset c => OtherAsset c
                        end) name (assets ed))
       (editor_calls ed))).

(** [binding.remove()] *)
Definition binding_remove (sequence_name : string) (binding : Binding) : M editor unit :=
  update_sequence sequence_name (fun sequence =>
    mkLevelSequence
      (filter (fun b => binding_id b <> binding_id binding) (get_bindings sequence))
      (get_master_tracks sequence)).

(** [binding.remove_track(track)] *)
Definition binding_remove_track (sequence_name : string) (binding : Binding)
    (track : Track) : M editor unit :=
  update_sequence sequence_name (fun sequence =>
    mkLevelSequence
      ((fun b =>
          if decide (binding_id b = binding_id binding)
          then mkBinding (binding_id b) (get_name b) (get_display_name b)
                 (binding_parent b)
                 (filter (fun t => track_id t <> track_id track) (get_tracks b))
          else b) <$> get_bindings sequence)
      (get_master_tracks sequence)).

(** [binding.get_child_possessables()] *)
Definition get_child_possessables (sequence : LevelSequence) (binding : Binding)
  : list Binding :=
  filter (fun b => binding_parent b = Some (binding_id binding)) (get_bindings sequence).

(** [for x in l: body(x)] *)
Fixpoint for_each {W A} (l : list A) (body : A -> M W unit) : M W unit :=
  match l with
  | [] => mret tt
  | x :: l' => body x;; for_each l' body
  end.

(** Truth value of a string: non-empty. *)
Definition str_truthy (s : string) : bool := negb (String.eqb s EmptyString).

(** The search loop of [remove_sequence_camera]:
    [if binding.get_name() or binding.get_display_name() == camera_name:]
    keeps the binding and breaks. *)
Fixpoint find_camera_bind (camera_name : string) (sequence_bindings : list Binding)
  : option Binding :=
  match sequence_bindings with
  | [] => None
  | binding :: rest =>
      if str_truthy (get_name binding)
         || String.eqb (get_display_name binding) camera_name
      then Some binding
      else find_camera_bind camera_name rest
  end.

Definition remove_sequence_camera (level_sequence_name camera_name : string)
  : M editor bool :=
  level_sequence_asset ← load_asset level_sequence_name;
  match level_sequence_asset with
  | None => mret false
  | Some a =>
      sequence ← as_sequence a;
      let sequence_bindings := get_bindings sequence in
      match find_camera_bind camera_name sequence_bindings with
      | None => mret false
      | Some camera_bind =>
          editor_do CloseLevelSequence;;
          let children_component := get_child_possessables sequence camera_bind in
          for_each children_component (binding_remove level_sequence_name);;
          let camera_tracks := get_tracks camera_bind in
          for_each camera_tracks
            (binding_remove_track level_sequence_name camera_bind);;
          binding_remove level_sequence_name camera_bind;;
          editor_do RefreshCurrentLevelSequence;;
          editor_do (SaveLoadedAsset level_sequence_name);;
          mret true
      end
  end.

(** The search loop of [get_subsequences]. *)
Fixpoint find_subscene_track (tracks : list Track) : option Track :=
  match tracks with
  | [] => None
  | track :: rest =>
      if decide (get_class track = MovieSceneSubTrack)
      then Some track
      else find_subscene_track rest
  end.

Definition get_subsequences (level_sequence_name : string) : M editor (list string) :=
  level_sequence_asset ← load_asset level_sequence_name;
  match level_sequence_asset with
  | None => mret []
  | Some a =>
      sequence ← as_sequence a;
      let tracks := get_master_tracks sequence in
      match find_subscene_track tracks with
      | Some found_subscene_track => mret (get_sections found_subscene_track)
      | None => mret []
      end
  end.

(** What the documentation of [remove_sequence_camera] describes: the
    first binding whose name or display name is [camera_name]. *)
Definition binding_named (camera_name : string) (bindings : list Binding)
  : option Binding :=
  List.find (fun binding =>
               String.eqb (get_name binding) camera_name
               || String.eqb (get_display_name binding) camera_name) bindings.

(** *** An example sequence: a light and a camera *)

Definition key_light : Binding :=
  mkBinding 1 "KeyLight" "KeyLight" None
    [mkTrack 10 MovieScene3DTransformTrack ["Transform"]].

Definition shot_camera : Binding :=
  mkBinding 2 "ShotCam" "ShotCam" None
    [mkTrack 20 MovieScene3DTransformTrack ["Transform"]].

Definition shot_sequence : LevelSequence :=
  mkLevelSequence [key_light; shot_camera]
    [mkTrack 30 MovieSceneCameraCutTrack ["Cut"]].

Definition shot_editor : editor :=
  mkEditor {["/Game/Shots/Shot010" := SequenceAsset shot_sequence]} [].

(** ** FBX import and export tasks

    What Unreal decides for the task builders: whether
    [set_editor_property(name, value)] on an object of a given class
    raises, whether an export task succeeds, and how values and paths
    are rendered ([str], [os.path.join]). *)

Inductive unreal_class : Type :=
  | FbxImportUI_class
  | FbxSkeletalMeshImportData_class
  | FbxExportOption_class.

Inductive object_class : Type := StaticMesh | SkeletalMesh | OtherClass (name : string).

(** A loaded asset, as [export_fbx_asset] sees it. *)
Record uobject : Type := mkObject { object_name : string; get_object_class : object_class }.

Inductive exporter_class : Type := StaticMeshExporterFBX | SkeletalMeshExporterFBX.

Record AssetExportTask : Type := mkExportTask {
  export_filename : string;
  replace_identical : bool;
  export_automated : bool;
  export_object : uobject;
  export_options : dict;
  exporter : exporter_class
}.

Class Unreal : Type := {
  set_editor_property_error : unreal_class -> string -> pyval -> option exn;
  run_export_succeeds : AssetExportTask -> bool;
  py_str : pyval -> string;
  object_str : uobject -> string;
  object_class_str : object_class -> string;
  os_path_join : string -> string -> string
}.

Inductive FBXImportType : Type := FBXIT_STATIC_MESH | FBXIT_SKELETAL_MESH.

(** [unreal.FbxImportUI]: the properties set on it, in the order they
    were set. *)
Record FbxImportUI : Type := mkFbxImportUI {
  import_properties : dict;
  skeletal_mesh_import_data : option dict;
  mesh_type_to_import : FBXImportType
}.

Record AssetImportTask : Type := mkImportTask {
  task_filename : string;
  task_destination_path : string;
  task_destination_name : option string;
  task_replace_existing : bool;
  task_automated : bool;
  task_save : bool;
  task_options : FbxImportUI
}.

(** The dictionaries that Python code shares by reference live in a
    store; an argument or a module-level name holds the location.  The
    host also records the export tasks it ran. *)
Record fbx_host : Type := mkFbxHost {
  heap : gmap nat dict;
  export_runs : list AssetExportTask
}.

(** Where the two modules keep their default import options. *)
Definition DEFAULT_FBX_IMPORT_OPTIONS : nat := 0%nat.
Definition DEFAULT_ASSETS_FBX_IMPORT_OPTIONS : nat := 1%nat.

(** The default export options of [assets.py]; they are only read. *)
Definition DEFAULT_ASSETS_FBX_EXPORT_OPTIONS : dict :=
  [("ascii", VBool false); ("collision", VBool false);
   ("level_of_detail", VBool false); ("vertex_color", VBool true)].

(** Read the dictionary at a location.  Every location Python can hold
    is allocated; the error case stands for a dangling one. *)
Definition deref (l : nat) : M fbx_host dict :=
  query_host (fun h => match heap h !! l with
                       | Some d => Ret d
                       | None => Raise TypeError
                       end).

(** [d.pop(key, default)] on the dictionary at [l], in place. *)
Definition heap_pop (l : nat) (key : string) (default : pyval) : M fbx_host pyval :=
  call_host (fun h =>
    match heap h !! l with
    | Some d =>
        let '(v, d') := dict_pop key default d in
        (Ret v, mkFbxHost (<[l := d']> (heap h)) (export_runs h))
    | None => (Raise TypeError, h)
    end).

(** [value.items()]: only a dictionary has the method. *)
Definition py_items {W} (v : pyval) : M W dict :=
  match v with
  | VDict items => mret items
  | _ => raise AttributeError
  end.

Section Tasks.
Context `{Unreal}.

(** [obj.set_editor_property(name, value)] on an object of class [cls] *)
Definition set_editor_property {W} (cls : unreal_class) (name : string) (value : pyval)
  : M W unit :=
  match set_editor_property_error cls name value with
  | Some e => raise e
  | None => mret tt
  end.

(** [for name, value in items: try: obj.set_editor_property(name, value)
    except Exception: unreal.log_warning(prefix.format(name, value))];
    the result is what was set. *)
Fixpoint set_properties {W} (cls : unreal_class) (prefix : string) (items : dict)
    (done_ : dict) : M W dict :=
  match items with
  | [] => mret done_
  | (name, value) :: rest =>
      done' ← try_except
                (set_editor_property cls name value;;
                 mret (done_ ++ [(name, value)]))
                is_Exception
                (fun _ =>
                   unreal_log_warning
                     (prefix +:+ name +:+ ": " +:+ py_str value);;
                   mret done_);
      set_properties cls prefix rest done'
  end.

(** The body of [generate_fbx_import_task], the same text in
    [helpers.py] and in [assets.py] but for the module's default
    dictionary. *)
Definition generate_fbx_import_task_with (default_options : nat)
    (filename destination_path : string) (destination_name : option string)
    (replace_existing automated save : bool) (fbx_options : option nat)
  : M fbx_host AssetImportTask :=
  let task_destination_name :=
    match destination_name with
    | Some n => if str_truthy n then Some n else None
    | None => None
    end in
  (* fbx_options = fbx_options or DEFAULT *)
  fbx_options ← match fbx_options with
                | None => mret default_options
                | Some l =>
                    d ← deref l;
                    mret (if Py.list_truthy d then l else default_options)
                end;
  as_skeletal ← heap_pop fbx_options "mesh_type_to_import" (VBool false);
  skeletal_mesh_import_data ←
    heap_pop fbx_options "skeletal_mesh_import_data" (VDict []);
  sk_import_data ←
    (if truthy skeletal_mesh_import_data
     then
       items ← py_items skeletal_mesh_import_data;
       set_ ← set_properties FbxSkeletalMeshImportData_class
                "Was not possible to set Skeletal Mesh FBX Import property: "
                items [];
       mret (Some set_)
     else mret None);
  items ← deref fbx_options;
  properties ← set_properties FbxImportUI_class
                  "Was not possible to set FBX Import property: " items [];
  let mesh_type :=
    if truthy as_skeletal then FBXIT_SKELETAL_MESH else FBXIT_STATIC_MESH in
  mret (mkImportTask filename destination_path task_destination_name
          replace_existing automated save
          (mkFbxImportUI properties sk_import_data mesh_type)).

(** [helpers.generate_fbx_import_task] *)
Definition generate_fbx_import_task :=
  generate_fbx_import_task_with DEFAULT_FBX_IMPORT_OPTIONS.

End Tasks.

(** ** The namespace of the [helpers] module

    Every name bound at the top level of [helpers.py]: its imports, its
    constants and its functions.  [helpers.name] raises [AttributeError]
    for any other name. *)
Definition helpers_names : list string :=
  [ "print_function"; "division"; "absolute_import";
    "os"; "sys"; "json"; "tempfile"; "OrderedDict"; "unreal";
    "string_types"; "text_type";
    "MATERIAL_SAMPLER_TYPES"; "MATERIAL_PROPERTIES"; "DEFAULT_FBX_IMPORT_OPTIONS";
    "is_string"; "force_list"; "get_index_in_list"; "get_first_in_list";
    "create_temporary_directory"; "read_json_file"; "write_to_json_file";
    "get_unreal_version_name"; "get_unreal_version";
    "get_current_unreal_project_path"; "save_current_level";
    "get_editor_world"; "get_game_world";
    "get_all_actors_in_current_level"; "get_selected_actors_in_current_level";
    "get_all_actors_and_labels_in_current_level";
    "get_selected_actors_and_labels_in_current_level";
    "get_all_actors_and_names_in_current_level";
    "get_selected_actors_and_names_in_current_level";
    "get_actor_by_label_in_current_level"; "delete_actor"; "create_folder";
    "list_asset_paths"; "asset_exists"; "get_asset_unique_name"; "rename_asset";
    "move_assets_to_path"; "get_assets"; "get_asset_data"; "get_asset";
    "get_selected_asset_data"; "get_selected_assets";
    "find_all_blueprints_data_assets_of_type"; "create_asset"; "import_assets";
    "generate_fbx_import_task"; "import_fbx_asset";
    "generate_texture_import_task"; "import_texture_asset";
    "create_material"; "create_material_texture_sample";
    "convert_maya_transforms_into_unreal_transforms";
    "remove_sequence_camera"; "get_subsequences" ].

(** Evaluating the attribute reference [helpers.<name>]. *)
Definition helpers_getattr {W} (name : string) : M W unit :=
  if bool_decide (name ∈ helpers_names) then mret tt else raise AttributeError.

(** ** assets.py *)

Module assets.
Section Assets.
Context `{Unreal}.

(** [assets.generate_fbx_import_task] *)
Definition generate_fbx_import_task :=
  generate_fbx_import_task_with DEFAULT_ASSETS_FBX_IMPORT_OPTIONS.

Definition generate_asset_fbx_export_task (asset : uobject) (filename : string)
    (replace_identical automated : bool) (fbx_options : option dict)
  : M fbx_host (option AssetExportTask) :=
  let fbx_options :=
    match fbx_options with
    | Some (item :: items) => item :: items
    | _ => DEFAULT_ASSETS_FBX_EXPORT_OPTIONS
    end in
  options ← set_properties FbxExportOption_class
              "Was not possible to set FBX Export property: " fbx_options [];
  let asset_class := get_object_class asset in
  let exporter :=
    match asset_class with
    | StaticMesh => Some StaticMeshExporterFBX
    | SkeletalMesh => Some SkeletalMeshExporterFBX
    | OtherClass _ => None
    end in
  match exporter with
  | None =>
      unreal_log_warning
        ("Asset Type " +:+ dquote +:+ object_class_str asset_class
           +:+ dquote +:+ " has not a compatible exporter!");;
      mret None
  | Some exporter =>
      mret (Some (mkExportTask filename replace_identical automated asset
                    options exporter))
  end.

(** [unreal.ExporterFBX.run_asset_export_task(task)] *)
Definition run_asset_export_task (task : AssetExportTask) : M fbx_host bool :=
  call_host (fun h =>
    (Ret (run_export_succeeds task),
     mkFbxHost (heap h) (export_runs h ++ [task]))).

(** [export_fbx_asset].  The callee [helpers.clean_path] is evaluated
    before its argument; what the call would return if the attribute
    existed is the parameter [clean_path]. *)
Definition export_fbx_asset (clean_path : string -> string)
    (asset : uobject) (directory fbx_filename : string)
    (export_options : option dict) : M fbx_host pyval :=
  helpers_getattr "clean_path";;
  let fbx_path :=
    clean_path
      (os_path_join directory
         ((if str_truthy fbx_filename then fbx_filename else object_name asset)
            +:+ ".fbx")) in
  unreal_log ("Exporting Asset " +:+ dquote +:+ object_str asset
                +:+ dquote +:+ " in following path: " +:+ dquote +:+ fbx_path
                +:+ dquote);;
  export_task ← generate_asset_fbx_export_task asset fbx_path true true export_options;
  match export_task with
  | None =>
      unreal_log_warning "Was not possible to generate asset FBX export task";;
      mret VNone
  | Some export_task =>
      result_ ← run_asset_export_task export_task;
      mret (if result_ : bool then VStr fbx_path else VStr EmptyString)
  end.

End Assets.
End assets.

(** *** An editor that accepts every property and every export *)

#[global] Instance permissive_unreal : Unreal := {|
  set_editor_property_error _ _ _ := None;
  run_export_succeeds _ := true;
  py_str v := match v with
              | VStr s => s
              | VBool true => "True"
              | VBool false => "False"
              | VInt z => str_int z
              | VNone => "None"
              | _ => "..."
              end;
  object_str o := object_name o;
  object_class_str c := match c with
                        | StaticMesh => "StaticMesh"
                        | SkeletalMesh => "SkeletalMesh"
                        | OtherClass n => n
                        end;
  os_path_join directory file := directory +:+ "/" +:+ file
|}.

(** A caller's options for a skeletal mesh, stored at location 7, next
    to the two modules' defaults. *)
Definition caller_options : dict :=
  [("import_materials", VBool false);
   ("mesh_type_to_import", VBool true);
   ("skeletal_mesh_import_data", VDict [("import_morph_targets", VBool true)])].

Definition default_import_options : dict :=
  [("import_materials", VBool true); ("import_textures", VBool true);
   ("import_as_skeletal", VBool false)].

Definition caller_host : fbx_host :=
  mkFbxHost
    (<[7%nat := caller_options]>
       (<[DEFAULT_FBX_IMPORT_OPTIONS := default_import_options]>
          (<[DEFAULT_ASSETS_FBX_IMPORT_OPTIONS := default_import_options]> ∅)))
    [].

(** ** helpers.py: [force_list]

    The argument is any object; a tuple is the one kind of object the
    function treats apart that is not plain data. *)



(** ** [str.format]

    The format strings of the helpers are literals.  [py_format] runs
    one over positional arguments that are already strings, from left to
    right: [{{] and [}}] are the escaped braces, [{}] is replaced by the
    next argument ([IndexError] when none is left), a [}] on its own or
    an unclosed [{] raises [ValueError].  A replacement field that is not
    empty is outside this fragment: [None]. *)
Fixpoint py_format (fmt : string) (args : list string) : option (result string) :=
  match fmt with
  | EmptyString => Some (Ret EmptyString)
  | String c rest =>
      if Ascii.eqb c "{"%char then
        match rest with
        | EmptyString => Some (Raise ValueError)
        | String c' rest' =>
            if Ascii.eqb c' "{"%char then
              r ← py_format rest' args;
              Some (s ← r; Ret (String "{"%char s))
            else if Ascii.eqb c' "}"%char then
              match args with
              | [] => Some (Raise IndexError)
              | arg :: args' =>
                  r ← py_format rest' args';
                  Some (s ← r; Ret (arg +:+ s))
              end
            else None
        end
      else if Ascii.eqb c "}"%char then
        match rest with
        | String c' rest' =>
            if Ascii.eqb c' "}"%char then
              r ← py_format rest' args;
              Some (s ← r; Ret (String "}"%char s))
            else Some (Raise ValueError)
        | EmptyString => Some (Raise ValueError)
        end
      else
        r ← py_format rest args;
        Some (s ← r; Ret (String c s))
  end.

(** ** helpers.py: [create_temporary_directory] *)

(** [tempfile.mkdtemp(prefix=...)] *)
Class TempHost (W : Type) : Type := {
  mkdtemp : string -> W -> result string * W
}.

(** [return tempfile.mkdtemp(prefix='{}}_tmp_'.format(prefix))]; the
    outer [option] is [py_format]'s. *)
Definition create_temporary_directory {W} `{TempHost W} (prefix : string)
  : option (M W string) :=
  formatted ← py_format "{}}_tmp_" [prefix];
  Some (match formatted with
        | Ret p => call_host (mkdtemp p)
        | Raise e => raise e
        end).

(** ** helpers.py: actors of the current level *)

Record Actor : Type := mkActor {
  actor_id : nat;
  get_actor_name : string;
  get_actor_label : string
}.

(** [unreal.EditorActorSubsystem()]: the actors of the level and the
    selected ones. *)
Class LevelHost (W : Type) : Type := {
  get_all_level_actors : W -> list Actor;
  get_selected_level_actors : W -> list Actor
}.

Definition get_all_actors_in_current_level {W} `{LevelHost W} : M W (list Actor) :=
  query_host (fun w => Ret (get_all_level_actors w)).

Definition get_selected_actors_in_current_level {W} `{LevelHost W} : M W (list Actor) :=
  query_host (fun w => Ret (get_selected_level_actors w)).

Definition get_all_actors_and_labels_in_current_level {W} `{LevelHost W}
  : M W (list Actor * list string) :=
  actors ← get_all_actors_in_current_level;
  let actor_names := get_actor_label <$> actors in
  mret (actors, actor_names).

Definition get_selected_actors_and_labels_in_current_level {W} `{LevelHost W}
  : M W (list Actor * list string) :=
  actors ← get_selected_actors_in_current_level;
  let actor_names := get_actor_label <$> actors in
  mret (actors, actor_names).

Definition get_all_actors_and_names_in_current_level {W} `{LevelHost W}
  : M W (list Actor * list string) :=
  actors ← get_all_actors_in_current_level;
  let actor_names := get_actor_name <$> actors in
  mret (actors, actor_names).

Definition get_selected_actors_and_names_in_current_level {W} `{LevelHost W}
  : M W (list Actor * list string) :=
  actors ← get_selected_actors_in_current_level;
  let actor_names := get_actor_name <$> actors in
  mret (actors, actor_names).

(** The loop of [get_actor_by_label_in_current_level]: the first actor
    with the label, then [break]. *)
Fixpoint find_actor_by_label (actor_label : string) (all_actors : list Actor)
  : option Actor :=
  match all_actors with
  | [] => None
  | actor :: rest =>
      if String.eqb (get_actor_label actor) actor_label
      then Some actor
      else find_actor_by_label actor_label rest
  end.

Definition get_actor_by_label_in_current_level {W} `{LevelHost W}
    (actor_label : string) : M W (option Actor) :=
  all_actors ← get_all_actors_in_current_level;
  mret (find_actor_by_label actor_label all_actors).

(** A level given by the list of its actors; nothing is selected. *)
#[global] Instance list_level_host : LevelHost (list Actor) := {|
  get_all_level_actors actors := actors;
  get_selected_level_actors _ := []
|}.

(** A host whose [mkdtemp] appends a fixed suffix and records the
    directory. *)
#[global] Instance list_temp_host : TempHost (list string) := {|
  mkdtemp p dirs := (Ret ("/tmp/" +:+ p +:+ "a1b2c3"), dirs ++ ["/tmp/" +:+ p +:+ "a1b2c3"])
|}.

(** ** helpers.py: [move_assets_to_path]

    [unreal.EditorAssetLibrary.load_asset] gives the loaded object or
    [None]; of the object only [get_name()] is used.  [rename_asset]
    moves an asset. *)

Class AssetLibraryHost (H : Type) : Type := {
  library_load_asset : H -> string -> option string;
  library_rename_asset : H -> string -> string -> H
}.



(** A content browser with directories and assets; an asset is stored
    under its path and has a name.  Renaming moves the asset, if
    there is one. *)
Record browser : Type := mkBrowser {
  browser_dirs : gset string;
  browser_assets : gmap string string
}.

#[global] Instance browser_directory_host : DirectoryHost browser := {|
  does_directory_exist b path := bool_decide (path ∈ browser_dirs b);
  make_directory b path := mkBrowser ({[path]} ∪ browser_dirs b) (browser_assets b)
|}.

#[global] Instance browser_library_host : AssetLibraryHost browser := {|
  library_load_asset b path := browser_assets b !! path;
  library_rename_asset b source destination :=
    match browser_assets b !! source with
    | Some n =>
        mkBrowser (browser_dirs b)
          (<[destination := n]> (delete source (browser_assets b)))
    | None => b
    end
|}.

(** ** [str.rsplit('/', 1)]

    The string before the last ['/'] and the string after it, when
    there is a ['/']. *)
Fixpoint rsplit_slash (s : string) : option (string * string) :=
  match s with
  | EmptyString => None
  | String c s' =>
      match rsplit_slash s' with
      | Some (before, after) => Some (String c before, after)
      | None => if Ascii.eqb c "/"%char then Some (EmptyString, s') else None
      end
  end.

(** [s.rsplit('/', 1)] *)
Definition rsplit1 (s : string) : list string :=
  match rsplit_slash s with
  | Some (before, after) => [before; after]
  | None => [s]
  end.

(** ** helpers.py: [create_asset]

    The asset tools and the asset library of the editor.  The class, the
    factory and the keyword arguments are handed to the editor as they
    are. *)

Class AssetToolsHost (W Obj : Type) : Type := {
  create_unique_asset_name : string -> string -> W -> string * string;
  does_asset_exist : string -> W -> bool;
  tools_create_asset : string -> string -> pyval -> pyval -> dict -> W -> option Obj * W;
  unreal_load_asset : string -> W -> option Obj
}.

(** [get_asset_unique_name(asset_path, suffix='')] *)
Definition get_asset_unique_name {W Obj} `{AssetToolsHost W Obj}
    (asset_path suffix : string) : M W (string * string) :=
  query_host (fun w => Ret (create_unique_asset_name asset_path suffix w)).

(** [asset_exists(asset_path)] *)
Definition asset_exists {W Obj} `{AssetToolsHost W Obj} (asset_path : string)
  : M W bool :=
  query_host (fun w => Ret (does_asset_exist asset_path w)).

Definition lift_result {W A} (r : result A) : M W A := fun st => (r, st).

Definition create_asset {W Obj} `{AssetToolsHost W Obj}
    (asset_path : string) (unique_name : bool) (asset_class asset_factory : pyval)
    (kwargs : dict) : M W (option Obj) :=
  asset_path ← (if unique_name
                then '(unique_path, asset_name) ← get_asset_unique_name asset_path EmptyString;
                     mret unique_path
                else mret asset_path);
  exists_ ← asset_exists asset_path;
  if negb exists_ then
    path ← lift_result (Py.getitem (rsplit1 asset_path) 0);
    name ← lift_result (Py.getitem (rsplit1 asset_path) 1);
    call_host (fun w =>
      let '(created, w') := tools_create_asset name path asset_class asset_factory kwargs w in
      (Ret created, w'))
  else
    query_host (fun w => Ret (unreal_load_asset asset_path w)).

(** An asset registry in memory: the path of every asset, with the
    asset's class name.  A unique name is the path itself when it is
    free and the path followed by 1 otherwise; the second component is
    the part after the last ['/']. *)
#[global] Instance registry_tools_host : AssetToolsHost (gmap string string) string := {|
  create_unique_asset_name path suffix registry :=
    let unique := if bool_decide (is_Some (registry !! (path +:+ suffix)))
                  then path +:+ suffix +:+ "1" else path +:+ suffix in
    (unique, match rsplit_slash unique with Some (_, n) => n | None => unique end);
  does_asset_exist path registry := bool_decide (is_Some (registry !! path));
  tools_create_asset name package asset_class _ _ registry :=
    (Some (package +:+ "/" +:+ name),
     <[package +:+ "/" +:+ name :=
         match asset_class with VStr c => c | _ => "Object" end]> registry);
  unreal_load_asset path registry :=
    if bool_decide (is_Some (registry !! path)) then Some path else None
|}.

(** ** helpers.py: [import_assets] and [import_fbx_asset]

    [import_asset_tasks] runs the tasks; afterwards each task carries
    the paths of the objects it imported. *)

Class Importer : Type := {
  import_asset_tasks : list AssetImportTask -> fbx_host -> fbx_host;
  imported_object_paths : fbx_host -> AssetImportTask -> list string
}.

Section ImportTasks.
Context `{Unreal} `{Importer}.

(** The loop over the tasks: one log line for the task, one for each
    imported object, whose path is appended to [imported_paths]. *)
Fixpoint import_assets_loop (asset_tasks : list AssetImportTask)
    (imported_paths : list string) : M fbx_host (list string) :=
  match asset_tasks with
  | [] => mret imported_paths
  | task :: rest =>
      unreal_log ("Import Task for: " +:+ task_filename task);;
      object_paths ← query_host (fun h => Ret (imported_object_paths h task));
      for_each object_paths
        (fun object_path => unreal_log ("Imported object: " +:+ object_path));;
      import_assets_loop rest (imported_paths ++ object_paths)
  end.

Definition import_assets (asset_tasks : list AssetImportTask)
  : M fbx_host (list string) :=
  call_host (fun h => (Ret tt, import_asset_tasks asset_tasks h));;
  import_assets_loop asset_tasks [].

(** [helpers.import_fbx_asset]; the task is built with the defaults
    [replace_existing=True, automated=True, save=True]. *)
Definition import_fbx_asset (filename destination_path : string)
    (destination_name : option string) (import_options : option nat)
  : M fbx_host string :=
  task ← generate_fbx_import_task filename destination_path destination_name
           true true true import_options;
  imported ← import_assets [task];
  lift_result (get_first_in_list imported EmptyString).

End ImportTasks.

(** The log lines [import_assets] writes for one task: the task, then
    each object it imported. *)
Definition import_lines `{Importer} (h : fbx_host) (task : AssetImportTask)
  : list log_entry :=
  Log ("Import Task for: " +:+ task_filename task)
    :: (Log ∘ (fun p => "Imported object: " +:+ p) <$> imported_object_paths h task).

(** An importer that imports one object per task, named after the
    task's destination, and keeps the store. *)
#[global] Instance echo_importer : Importer := {|
  import_asset_tasks _ h := h;
  imported_object_paths _ task :=
    [task_destination_path task +:+ "/" +:+
       match task_destination_name task with Some n => n | None => "Imported" end]
|}.

(** *** Vocabulary for the task builders *)

Section TaskVocabulary.
Context `{Unreal}.

(** The editor accepts [set_editor_property(name, value)] on a [cls]. *)
Definition settable (cls : unreal_class) (item : string * pyval) : Prop :=
  set_editor_property_error cls item.1 item.2 = None.

(** When the editor refuses an item, it does so with an [Exception]. *)
Definition refuses_with_exceptions (cls : unreal_class) (items : dict) : Prop :=
  forall name value e,
    (name, value) ∈ items ->
    set_editor_property_error cls name value = Some e -> is_Exception e = true.

(** The warning logged for a refused item. *)
Definition refusal_warning (prefix : string) (item : string * pyval) : log_entry :=
  LogWarning (prefix +:+ item.1 +:+ ": " +:+ py_str item.2).

(** The dictionary [fbx_options or DEFAULT] stands for: the argument's
    when it is a non-empty dictionary, the module's default otherwise. *)
Definition chosen_options (default_options : nat) (fbx_options : option nat)
    (h : fbx_host) : nat :=
  match fbx_options with
  | None => default_options
  | Some l =>
      match heap h !! l with
      | Some (_ :: _) => l
      | _ => default_options
      end
  end.

End TaskVocabulary.

(** An editor that accepts booleans only and refuses every other value
    with a [TypeError]. *)
Definition picky_unreal : Unreal := {|
  set_editor_property_error _ _ value :=
    match value with VBool _ => None | _ => Some TypeError end;
  run_export_succeeds _ := true;
  py_str v := match v with
              | VStr s => s
              | VBool true => "True"
              | VBool false => "False"
              | VInt z => str_int z
              | VNone => "None"
              | _ => "..."
              end;
  object_str o := object_name o;
  object_class_str c := match c with
                        | StaticMesh => "StaticMesh"
                        | SkeletalMesh => "SkeletalMesh"
                        | OtherClass n => n
                        end;
  os_path_join directory file := directory +:+ "/" +:+ file
|}.

(** *** An example sequence with subsequences *)

Definition master_sequence : LevelSequence :=
  mkLevelSequence [shot_camera]
    [mkTrack 40 MovieSceneCameraCutTrack ["Cut"];
     mkTrack 41 MovieSceneSubTrack ["Shot010"; "Shot020"];
     mkTrack 42 MovieSceneSubTrack ["Alt010"]].

Definition master_editor : editor :=
  mkEditor {["/Game/Shots/Master" := SequenceAsset master_sequence]} [].


(** The state in which the sequence stored under [name] is [sequence]. *)
Definition with_sequence (st : state editor) (name : string) (sequence : LevelSequence)
  : state editor :=
  mkState
    (mkEditor (<[name := SequenceAsset sequence]> (assets (host st)))
       (editor_calls (host st)))
    (output_log st).

(** ** helpers.py: materials

    The material editing library is recorded as the calls made to it.
    A material expression is known by the number it got when it was
    created. *)

Inductive expression_class : Type :=
  | MaterialExpressionTextureSample
  | MaterialExpressionConstant.

Inductive material_property : Type :=
  | MP_BASE_COLOR
  | MP_METALLIC
  | MP_SPECULAR
  | MP_ROUGHNESS
  | MP_EMISSIVE_COLOR
  | MP_NORMAL.

Inductive sampler_type : Type :=
  | SAMPLERTYPE_COLOR
  | SAMPLERTYPE_GRAYSCALE
  | SAMPLERTYPE_ALPHA
  | SAMPLERTYPE_NORMAL
  | SAMPLERTYPE_MASKS
  | SAMPLERTYPE_DISTANCE_FIELD_FONT
  | SAMPLERTYPE_LINEAR_COLOR.

(** What the helpers hand to [set_editor_property] of an expression. *)
Inductive material_value : Type :=
  | MNone
  | MNumber (x : float)
  | MTexture (texture : string)
  | MSampler (sampler : sampler_type).

Inductive material_call : Type :=
  | CreateMaterialAsset (name path : string)
  | CreateMaterialExpression (material : string) (cls : expression_class) (pos_x pos_y : Z)
  | SetExpressionProperty (node : nat) (name : string) (value : material_value)
  | ConnectMaterialProperty (node : nat) (from_expression : string)
      (property : material_property).

Record material_editor : Type := mkMaterialEditor {
  material_calls : list material_call;
  next_expression : nat
}.

(** Whether the editor refuses a property of an expression. *)
Class MaterialHost : Type := {
  expression_property_error : expression_class -> string -> material_value -> option exn
}.

Definition material_do (c : material_call) : M material_editor unit :=
  call_host (fun ed =>
    (Ret tt, mkMaterialEditor (material_calls ed ++ [c]) (next_expression ed))).

(** [unreal.MaterialEditingLibrary.create_material_expression] *)
Definition create_material_expression (material : string) (cls : expression_class)
    (pos_x pos_y : Z) : M material_editor nat :=
  call_host (fun ed =>
    (Ret (next_expression ed),
     mkMaterialEditor
       (material_calls ed ++ [CreateMaterialExpression material cls pos_x pos_y])
       (S (next_expression ed)))).

Section Materials.
Context `{MaterialHost}.

(** [node.set_editor_property(name, value)] on an expression *)
Definition set_expression_property (node : nat) (cls : expression_class)
    (name : string) (value : material_value) : M material_editor unit :=
  match expression_property_error cls name value with
  | Some e => raise e
  | None => material_do (SetExpressionProperty node name value)
  end.

(** [zip(diffuse_color, 'RGB')] *)
Definition zip_rgb (diffuse_color : list float) : list (float * string) :=
  zip diffuse_color ["R"; "G"; "B"].

Definition create_material (material_name material_path : string)
    (diffuse_color : option (list float)) (roughness specular : option float)
  : M material_editor string :=
  material_do (CreateMaterialAsset material_name material_path);;
  let new_material := material_name in
  (match diffuse_color with
   | Some diffuse_color =>
       ts_node_diffuse ← create_material_expression new_material
                           MaterialExpressionTextureSample 0 0;
       for_each (zip_rgb diffuse_color)
         (fun '(color_value, color_channel) =>
            set_expression_property ts_node_diffuse MaterialExpressionTextureSample
              color_channel (MNumber color_value));;
       material_do (ConnectMaterialProperty ts_node_diffuse "RGB" MP_BASE_COLOR)
   | None => mret tt
   end);;
  (match roughness with
   | Some r =>
       ts_node_roughness ← create_material_expression new_material
                             MaterialExpressionConstant 0 0;
       set_expression_property ts_node_roughness MaterialExpressionConstant "R"
         (MNumber r);;
       material_do (ConnectMaterialProperty ts_node_roughness EmptyString MP_ROUGHNESS)
   | None => mret tt
   end);;
  (match specular with
   | Some _ =>
       ts_node_specular ← create_material_expression new_material
                            MaterialExpressionConstant 0 0;
       (* [ts_node_specular.set_editor_property('R', roughness)] *)
       set_expression_property ts_node_specular MaterialExpressionConstant "R"
         (match roughness with Some r => MNumber r | None => MNone end);;
       material_do (ConnectMaterialProperty ts_node_specular EmptyString MP_SPECULAR)
   | None => mret tt
   end);;
  mret new_material.

End Materials.

(** A material editor that accepts every property. *)
#[global] Instance permissive_material_host : MaterialHost := {|
  expression_property_error _ _ _ := None
|}.

(** The calls that build the texture sample of the diffuse colour and a
    constant expression. *)
Definition diffuse_calls (material : string) (node : nat) (diffuse_color : list float)
  : list material_call :=
  CreateMaterialExpression material MaterialExpressionTextureSample 0 0
    :: ((fun '(v, channel) => SetExpressionProperty node channel (MNumber v))
          <$> zip diffuse_color ["R"; "G"; "B"])
    ++ [ConnectMaterialProperty node "RGB" MP_BASE_COLOR].

Definition constant_calls (material : string) (node : nat) (value : material_value)
    (property : material_property) : list material_call :=
  [CreateMaterialExpression material MaterialExpressionConstant 0 0;
   SetExpressionProperty node "R" value;
   ConnectMaterialProperty node EmptyString property].

(** ** [str.split(sep)]

    [s.split(sep)] for a separator that is not empty: the pieces of [s]
    between the occurrences of [sep], found from left to right without
    overlap.  [skip] counts the characters of a separator still to be
    passed over; [current] is the piece being read. *)
Fixpoint py_split_go (sep s : string) (skip : nat) (current : string) : list string :=
  match s with
  | EmptyString => [current]
  | String c s' =>
      match skip with
      | S k => py_split_go sep s' k current
      | O =>
          if String.prefix sep s
          then current :: py_split_go sep s' (String.length sep - 1) EmptyString
          else py_split_go sep s' 0 (current +:+ String c EmptyString)
      end
  end.

Definition py_split (sep s : string) : list string :=
  py_split_go sep s 0 EmptyString.

(** [sep.join(pieces)] *)
Fixpoint py_join (sep : string) (pieces : list string) : string :=
  match pieces with
  | [] => EmptyString
  | [piece] => piece
  | piece :: rest => piece +:+ sep +:+ py_join sep rest
  end.

(** ** helpers.py: the engine version *)

(** [unreal.SystemLibrary.get_engine_version()] and the interpreter's
    [int(s)]. *)
Class EngineHost (W : Type) : Type := {
  get_engine_version : W -> string;
  py_int : string -> result Z
}.

Definition get_unreal_version_name {W} `{EngineHost W} : M W string :=
  query_host (fun w => Ret (get_engine_version w)).

(** [[f(x) for x in l]] *)
Fixpoint map_result {A B} (f : A -> result B) (l : list A) : result (list B) :=
  match l with
  | [] => Ret []
  | x :: l' => y ← f x; ys ← map_result f l'; Ret (y :: ys)
  end.

Definition get_unreal_version {W} `{EngineHost W} : M W (list Z) :=
  version_name ← get_unreal_version_name;
  version_split ← lift_result (Py.getitem (py_split "+++" version_name) 0);
  let versions := py_split "-" version_split in
  first_version ← lift_result (Py.getitem versions 0);
  let main_version := py_split "." first_version in
  extra_version ← lift_result (Py.getitem versions (-1));
  version_int ← lift_result (map_result py_int main_version);
  extra ← lift_result (py_int extra_version);
  mret (version_int ++ [extra]).

(** An engine that reports a fixed version name; [int] reads a run of
    decimal digits and refuses every other string with [ValueError]. *)
Definition digits_to_Z (s : string) : result Z :=
  match NilEmpty.uint_of_string s with
  | Some d => match s with
              | EmptyString => Raise ValueError
              | _ => Ret (Z.of_uint d)
              end
  | None => Raise ValueError
  end.

#[global] Instance fixed_engine_host : EngineHost string := {|
  get_engine_version name := name;
  py_int := digits_to_Z
|}.

(** ** helpers.py: [get_asset]

    The asset registry answers [get_asset_by_object_path] with the
    asset's data, of which the helper reads the full name (class name,
    a space, object path), or with nothing the helper takes for true;
    [unreal.load_asset] loads by path. *)

Class RegistryHost (W Obj : Type) : Type := {
  get_asset_by_object_path : string -> bool -> W -> option string;
  registry_load_asset : string -> W -> option Obj
}.

(** [get_asset_data(asset_path, only_on_disk)]: the full name of the
    asset's data. *)
Definition get_asset_data {W Obj} `{RegistryHost W Obj}
    (asset_path : string) (only_on_disk : bool) : M W (option string) :=
  query_host (fun w => Ret (get_asset_by_object_path asset_path only_on_disk w)).

Definition get_asset {W Obj} `{RegistryHost W Obj}
    (asset_path : string) (only_on_disk : bool) : M W (option Obj) :=
  asset_data ← get_asset_data asset_path only_on_disk;
  match asset_data with
  | None => mret None
  | Some full_name =>
      path ← lift_result (Py.getitem (py_split " " full_name) (-1));
      query_host (fun w => Ret (registry_load_asset path w))
  end.

(** A registry in memory: object path to class name; the full name of
    an asset is its class name, a space and its path. *)
#[global] Instance map_registry_host : RegistryHost (gmap string string) string := {|
  get_asset_by_object_path path _ registry :=
    match registry !! path with
    | Some class_name => Some (class_name +:+ " " +:+ path)
    | None => None
    end;
  registry_load_asset path registry :=
    match registry !! path with
    | Some _ => Some path
    | None => None
    end
|}.

(** * Theorems *)

(** ** Theorems: list helpers *)

Lemma getitem_nonneg {A} (l : list A) (i : Z) (x : A) :
  0 <= i -> l !! Z.to_nat i = Some x -> Py.getitem l i = Ret x.
Proof.
  intros Hi Hx. unfold Py.getitem.
  assert (Hlt : (Z.to_nat i < length l)%nat) by (eapply lookup_lt_Some; eauto).
  destruct (i <? 0) eqn:E; [lia|].
  assert ((0 <=? i) && (i <? Z.of_nat (length l)) = true) as ->.
  { apply andb_true_intro; split; [apply Z.leb_le | apply Z.ltb_lt]; lia. }
  by rewrite Hx.
Qed.

Lemma get_index_in_list_default {A} (l : list A) (i : Z) (d : A) :
  ~ Py.in_range l i -> get_index_in_list l i d = Ret d.
Proof.
  unfold Py.in_range, get_index_in_list, Py.len. intros Hout.
  destruct l as [|x l]; [done|]. cbn [Py.list_truthy andb].
  destruct (Z.gtb_spec (Z.of_nat (length (x :: l))) (Z.abs i)); [lia | done].
Qed.

(** The helper never raises, whatever the index. *)
Lemma get_index_in_list_total {A} (l : list A) (i : Z) (d : A) :
  exists v, get_index_in_list l i d = Ret v.
Proof.
  unfold get_index_in_list, Py.len.
  destruct l as [|x l]; [by eexists|]. cbn [Py.list_truthy andb].
  destruct (Z.gtb_spec (Z.of_nat (length (x :: l))) (Z.abs i)) as [Hlt|]; [|by eexists].
  unfold Py.getitem.
  set (n := Z.of_nat (length (x :: l))) in *.
  set (j := if i <? 0 then n + i else i).
  assert (Hj : 0 <= j < n) by (subst j; destruct (Z.ltb_spec i 0); lia).
  assert ((0 <=? j) && (j <? n) = true) as ->.
  { apply andb_true_intro; split; [apply Z.leb_le | apply Z.ltb_lt]; lia. }
  destruct (lookup_lt_is_Some_2 (x :: l) (Z.to_nat j)) as [v Hv]; [subst n; lia|].
  rewrite Hv. by eexists.
Qed.

(** C5: for every list, default and out-of-range index,
    [get_index_in_list] returns the default without raising;
    [get_first_in_list] returns the default on the empty list and the
    first element on a non-empty one. *)
Theorem get_index_in_list_out_of_range :
  (forall (A : Type) (l : list A) (i : Z) (d : A),
      ~ Py.in_range l i -> get_index_in_list l i d = Ret d) /\
  (forall (A : Type) (d : A), get_first_in_list [] d = Ret d) /\
  (forall (A : Type) (x : A) (l : list A) (d : A),
      get_first_in_list (x :: l) d = Ret x).
Proof.
  split; [|split].
  - intros A l i d. apply get_index_in_list_default.
  - done.
  - intros A x l d. unfold get_first_in_list, get_index_in_list, Py.len.
    cbn [Py.list_truthy andb Z.abs].
    destruct (Z.gtb_spec (Z.of_nat (length (x :: l))) 0) as [_|Hle];
      [|cbn [length] in Hle; lia].
    by apply getitem_nonneg.
Qed.

Lemma get_index_in_list_out_of_range_witness :
  get_index_in_list [VInt 1; VInt 2; VInt 3] 7 VNone = Ret VNone /\
  get_index_in_list [VInt 1; VInt 2; VInt 3] (-4) VNone = Ret VNone /\
  get_index_in_list ([] : list pyval) 0 VNone = Ret VNone.
Proof.
  split; [|split];
    apply (proj1 get_index_in_list_out_of_range);
    unfold Py.in_range, Py.len; cbn [length]; lia.
Defined.

(** ** Theorems: [create_folder] *)

Section CreateFolder.
Context {H : Type} `{DirectoryHost H}.

Lemma create_folder_loop_first (h : H) (root name : string) (index : Z) (k : nat) :
  (forall j, (j < k)%nat ->
     does_directory_exist h (format_path root (candidate name index j)) = true) ->
  does_directory_exist h (format_path root (candidate name index k)) = false ->
  forall fuel, (k < fuel)%nat ->
    create_folder_loop fuel h root name index =
      Some (candidate name index k,
            make_directory h (format_path root (candidate name index k))).
Proof.
  revert name index. induction k as [|k IH]; intros name index Hbusy Hfree fuel Hfuel.
  - destruct fuel as [|fuel]; [lia|]. cbn in *. by rewrite Hfree.
  - destruct fuel as [|fuel]; [lia|]. cbn [create_folder_loop candidate] in *.
    pose proof (Hbusy 0%nat ltac:(lia)) as Hb0. cbn [candidate] in Hb0.
    rewrite Hb0. cbn [negb].
    apply IH; [|done|lia].
    intros j Hj. apply (Hbusy (S j)). lia.
Qed.

Lemma create_folder_loop_none (h : H) (root : string) :
  (forall p, does_directory_exist h p = true) ->
  forall fuel name index, create_folder_loop fuel h root name index = None.
Proof.
  intros Hall. induction fuel as [|fuel IH]; intros name index; [done|].
  cbn. rewrite Hall. cbn [negb]. apply IH.
Qed.

(** Whenever some candidate is free, the loop stops at the first free
    one, given enough iterations. *)
Lemma create_folder_loop_reaches (h : H) (root : string) (k : nat) :
  forall name index,
  does_directory_exist h (format_path root (candidate name index k)) = false ->
  forall fuel, (k < fuel)%nat ->
  exists k', (k' <= k)%nat /\
    (forall j, (j < k')%nat ->
       does_directory_exist h (format_path root (candidate name index j)) = true) /\
    does_directory_exist h (format_path root (candidate name index k')) = false /\
    create_folder_loop fuel h root name index =
      Some (candidate name index k',
            make_directory h (format_path root (candidate name index k'))).
Proof.
  induction k as [|k IH]; intros name index Hfree fuel Hfuel.
  - exists 0%nat. repeat split; [lia | intros j Hj; lia | done |].
    apply create_folder_loop_first; [intros j Hj; lia | done | lia].
  - destruct (does_directory_exist h (format_path root name)) eqn:Hhead.
    + destruct fuel as [|fuel]; [lia|].
      destruct (IH (name +:+ str_int index) (index + 1) Hfree fuel ltac:(lia))
        as (k' & Hle & Hbusy & Hk' & Hrun).
      exists (S k'). repeat split; [lia | | done |].
      * intros [|j] Hj; [done|]. apply Hbusy. lia.
      * cbn [create_folder_loop candidate]. by rewrite Hhead.
    + exists 0%nat. repeat split; [lia | intros j Hj; lia | done |].
      apply create_folder_loop_first; [intros j Hj; lia | done | lia].
Qed.

End CreateFolder.

Lemma string_length_app (a b : string) :
  String.length (a +:+ b) = (String.length a + String.length b)%nat.
Proof. induction a as [|c a IH]; [done | exact (f_equal S IH)]. Qed.

Lemma str_int_nonempty (i : Z) : (0 < String.length (str_int i))%nat.
Proof.
  unfold str_int. destruct (Z.to_int i) as [d|d]; destruct d; cbn; lia.
Qed.

(** Each retry appends the current [index] to the name built so far. *)
Lemma candidate_snoc (k : nat) : forall name index,
  candidate name index (S k) =
    candidate name index k +:+ str_int (index + Z.of_nat k).
Proof.
  induction k as [|k IH]; intros name index.
  - cbn. by rewrite Z.add_0_r.
  - change (candidate name index (S (S k)))
      with (candidate (name +:+ str_int index) (index + 1) (S k)).
    rewrite IH. cbn [candidate]. do 2 f_equal. lia.
Qed.

Lemma candidate_length_lt (name : string) (index : Z) (i j : nat) :
  (i < j)%nat ->
  (String.length (candidate name index i) < String.length (candidate name index j))%nat.
Proof.
  induction j as [|j IH]; [lia|]. intros Hij.
  rewrite candidate_snoc, string_length_app.
  pose proof (str_int_nonempty (index + Z.of_nat j)).
  destruct (decide (i = j)) as [->|Hne]; [lia|].
  specialize (IH ltac:(lia)). lia.
Qed.

Lemma format_path_length (root name : string) :
  String.length (format_path root name) = (String.length root + 1 + String.length name)%nat.
Proof. unfold format_path. rewrite !string_length_app. cbn. lia. Qed.

(** The paths tried by one call are pairwise different. *)
Lemma candidate_paths_inj (root name : string) (index : Z) :
  Inj (=) (=) (fun k => format_path root (candidate name index k)).
Proof.
  intros i j Heq. apply (f_equal String.length) in Heq.
  rewrite !format_path_length in Heq.
  destruct (Nat.lt_trichotomy i j) as [Hlt|[Heq'|Hlt]]; [|done|];
    apply (candidate_length_lt name index) in Hlt; lia.
Qed.

(** Among the first [length taken + 1] candidates one is outside [taken]. *)
Lemma candidate_free (root name : string) (index : Z) (taken : list string) :
  exists k, (k <= length taken)%nat /\
    format_path root (candidate name index k) ∉ taken.
Proof.
  set (f := fun k => format_path root (candidate name index k)).
  destruct (decide (Forall (fun k => f k ∈ taken) (seq 0 (S (length taken)))))
    as [Hall|Hnot].
  - exfalso.
    assert (Hsub : (f <$> seq 0 (S (length taken))) ⊆+ taken).
    { apply NoDup_submseteq.
      - pose proof (candidate_paths_inj root name index).
        apply (NoDup_fmap_2 f), NoDup_seq.
      - intros p (k & -> & Hk)%list_elem_of_fmap.
        rewrite Forall_forall in Hall. by apply Hall. }
    apply submseteq_length in Hsub. rewrite length_fmap, length_seq in Hsub. lia.
  - apply not_Forall_Exists in Hnot; [|apply _].
    apply Exists_exists in Hnot as (k & Hk & Hfree).
    apply elem_of_seq in Hk. exists k. split; [lia | done].
Qed.

(** C6 (as stated, refuted): with an existence check that reports a
    collision for every path, no number of iterations lets
    [create_folder "/Game" "Target"] return. *)
Lemma create_folder_crowded_never_returns :
  ~ exists fuel r, create_folder fuel Crowded "/Game" "Target" = Some r.
Proof.
  intros (fuel & r & Hrun). unfold create_folder in Hrun.
  by rewrite (create_folder_loop_none Crowded "/Game") in Hrun.
Qed.

(** C6 (amended): when the existence check reports a collision for
    finitely many paths only (all of them in the list [taken]),
    [create_folder] returns: after at most [length taken] retries it
    reaches a candidate that does not collide, creates it and returns
    its path, for every number of iterations larger than the number of
    retries. *)
Theorem create_folder_terminates
    {H : Type} `{DirectoryHost H} (h : H) (root name : string) (taken : list string) :
  (forall p, does_directory_exist h p = true -> p ∈ taken) ->
  exists k, (k <= length taken)%nat /\
    does_directory_exist h (format_path root (candidate name 1 k)) = false /\
    forall fuel, (k < fuel)%nat ->
      create_folder fuel h root name =
        Some (format_path root (candidate name 1 k),
              make_directory h (format_path root (candidate name 1 k))).
Proof.
  intros Hfin.
  destruct (candidate_free root name 1 taken) as (k & Hk & Hout).
  assert (Hfree : does_directory_exist h (format_path root (candidate name 1 k)) = false).
  { destruct (does_directory_exist h _) eqn:E; [|done]. by apply Hfin in E. }
  destruct (create_folder_loop_reaches h root k name 1 Hfree (S k) ltac:(lia))
    as (k' & Hle & Hbusy & Hfree' & _).
  exists k'. repeat split; [lia | done |].
  intros fuel Hfuel. unfold create_folder.
  by rewrite (create_folder_loop_first h root name 1 k' Hbusy Hfree' fuel Hfuel).
Qed.

Lemma create_folder_terminates_witness :
  exists k, (k <= 1)%nat /\
    does_directory_exist ({["/Game/Target"]} : gset string)
      (format_path "/Game" (candidate "Target" 1 k)) = false /\
    forall fuel, (k < fuel)%nat ->
      create_folder fuel ({["/Game/Target"]} : gset string) "/Game" "Target" =
        Some (format_path "/Game" (candidate "Target" 1 k),
              make_directory ({["/Game/Target"]} : gset string)
                (format_path "/Game" (candidate "Target" 1 k))).
Proof.
  apply (create_folder_terminates ({["/Game/Target"]} : gset string)
           "/Game" "Target" ["/Game/Target"]).
  intros p Hp. apply bool_decide_eq_true in Hp. set_solver.
Defined.

(** C3 (the code at the failing input): with ["/Game/Target"] and
    ["/Game/Target1"] taken, the second retry tries ["Target12"], the
    name already suffixed by the first retry followed by 2, and not
    ["Target2"], although ["/Game/Target2"] is free; ["/Game/Target12"]
    is created and returned. *)
Theorem create_folder_second_retry_accumulates :
  candidate "Target" 1 2 = "Target12" /\
  candidate "Target" 1 2 <> "Target" +:+ str_int 2 /\
  does_directory_exist ({["/Game/Target"; "/Game/Target1"]} : gset string)
    (format_path "/Game" ("Target" +:+ str_int 2)) = false /\
  create_folder 3 ({["/Game/Target"; "/Game/Target1"]} : gset string) "/Game" "Target" =
    Some ("/Game/Target12",
          make_directory ({["/Game/Target"; "/Game/Target1"]} : gset string)
            "/Game/Target12").
Proof.
  split; [reflexivity|]. split; [by vm_compute|].
  split; [by vm_compute|]. by vm_compute.
Qed.

(** ** Theorems: [convert_maya_transforms_into_unreal_transforms] *)

(** The conversion of three triples: the second and third components
    are exchanged, and the rotation's last component is the negated
    second one. *)
Lemma convert_maya_transforms_triples (x y z a b c sx sy sz : float) :
  convert_maya_transforms_into_unreal_transforms
    (Some [x; y; z]) (Some [a; b; c]) (Some [sx; sy; sz]) =
  Ret (mkVector x z y, mkRotator a c (b * -1)%float, mkVector sx sz sy).
Proof. reflexivity. Qed.

Lemma float_sign_differs (u v : float) :
  PrimFloat.ltb u 0%float <> PrimFloat.ltb v 0%float -> u <> v.
Proof. intros Hs ->. by apply Hs. Qed.

(** C4 (as stated, refuted): converting the rotation (10, 20, 30) twice
    gives (10, -20, -30), which is not the original rotation with a
    single component negated. *)
Lemma convert_twice_not_single_axis :
  ~ exists a : axis,
      convert_twice [1; 2; 3]%float [10; 20; 30]%float [1; 1; 1]%float =
      Ret (mkVector 1 2 3, negate_axis a (mkRotator 10 20 30), mkVector 1 1 1).
Proof.
  intros [a Heq]. unfold convert_twice in Heq.
  rewrite convert_maya_transforms_triples in Heq. cbn in Heq.
  pose (rot := fun (f : Rotator -> float) (r : result (Vector * Rotator * Vector)) =>
                 match r with Ret (_, r', _) => f r' | Raise _ => 0%float end).
  destruct a; cbn in Heq.
  - apply (f_equal (rot roll)) in Heq. revert Heq.
    apply float_sign_differs. by vm_compute.
  - apply (f_equal (rot yaw)) in Heq. revert Heq.
    apply float_sign_differs. by vm_compute.
  - apply (f_equal (rot pitch)) in Heq. revert Heq.
    apply float_sign_differs. by vm_compute.
Qed.

(** C4 (amended): the conversion exchanges the second and third
    components of each triple and negates the rotation component it
    moves to the last place; applied twice it restores translation and
    scale exactly and restores the rotation except that both its second
    and its third component are multiplied by -1. *)
Theorem convert_twice_triples (x y z a b c sx sy sz : float) :
  convert_maya_transforms_into_unreal_transforms
    (Some [x; y; z]) (Some [a; b; c]) (Some [sx; sy; sz]) =
    Ret (mkVector x z y, mkRotator a c (b * -1)%float, mkVector sx sz sy) /\
  convert_twice [x; y; z] [a; b; c] [sx; sy; sz] =
    Ret (mkVector x y z, mkRotator a (b * -1)%float (c * -1)%float, mkVector sx sy sz).
Proof. split; reflexivity. Qed.

(** ** Theorems: JSON files *)

Section JsonFiles.
Context {W : Type} `{FileHost W}.

(** The three ways [read_json_file] can go once [os.stat] succeeded. *)
Lemma read_json_file_after_stat (filename : string) (maintain_order : bool)
    (st : state W) (size : Z) :
  stat_size filename (host st) = Ret size ->
  read_json_file filename maintain_order st =
    if size =? 0 then (Ret VNone, st)
    else match load_json filename maintain_order (host st) with
         | Ret data => (Ret data, st)
         | Raise e =>
             if is_Exception e
             then (Raise e,
                   mkState (host st)
                     (output_log st ++ [LogWarning ("Could not read " +:+ filename)]))
             else (Raise e, st)
         end.
Proof.
  intros Hstat. unfold read_json_file, mbind, M_bind, query_host, try_except.
  rewrite Hstat. destruct (size =? 0); [done|].
  destruct (load_json filename maintain_order (host st)) as [data|e]; [done|].
  by destruct (is_Exception e).
Qed.

Lemma read_json_file_stat_raises (filename : string) (maintain_order : bool)
    (st : state W) (e : exn) :
  stat_size filename (host st) = Raise e ->
  read_json_file filename maintain_order st = (Raise e, st).
Proof.
  intros Hstat. unfold read_json_file, mbind, M_bind, query_host.
  by rewrite Hstat.
Qed.

End JsonFiles.
(** C8 (as stated, refuted): reading a file that does not exist fails in
    [os.stat], before the [try] block; the [FileNotFoundError] is raised
    with nothing logged. *)
Lemma read_json_file_missing_file_not_logged :
  read_json_file "missing.json" false (mkState (mkDisk ∅ ∅) []) =
    (Raise FileNotFoundError, mkState (mkDisk ∅ ∅) []) /\
  ~ exists msg,
      LogWarning msg ∈
        output_log (read_json_file "missing.json" false (mkState (mkDisk ∅ ∅) [])).2.
Proof.
  split; [reflexivity|]. intros [msg Hin]. vm_compute in Hin.
  by apply elem_of_nil in Hin.
Qed.

(** C8 (amended): once [os.stat] has succeeded with a size other than 0,
    a failure of the guarded [open]/[json.load] block with an
    [Exception] is logged as a warning and the same exception is raised
    again.  A failure of [os.stat] itself is raised with nothing logged,
    and a file of size 0 gives [None] without being read. *)
Theorem read_json_file_reraises
    {W : Type} `{FileHost W} (filename : string) (maintain_order : bool) (st : state W) :
  (forall size e,
      stat_size filename (host st) = Ret size -> size <> 0 ->
      load_json filename maintain_order (host st) = Raise e ->
      is_Exception e = true ->
      read_json_file filename maintain_order st =
        (Raise e,
         mkState (host st)
           (output_log st ++ [LogWarning ("Could not read " +:+ filename)]))) /\
  (forall e,
      stat_size filename (host st) = Raise e ->
      read_json_file filename maintain_order st = (Raise e, st)) /\
  (stat_size filename (host st) = Ret 0 ->
      read_json_file filename maintain_order st = (Ret VNone, st)).
Proof.
  split; [|split].
  - intros size e Hstat Hsize Hload Hexc.
    rewrite (read_json_file_after_stat _ _ _ _ Hstat), Hload, Hexc.
    by destruct (Z.eqb_spec size 0).
  - intros e Hstat. by apply read_json_file_stat_raises.
  - intros Hstat. by rewrite (read_json_file_after_stat _ _ _ _ Hstat).
Qed.

Lemma read_json_file_reraises_witness :
  read_json_file "bad.json" false
    (mkState (mkDisk {["bad.json" := TextFile]} ∅) [Log "start"]) =
  (Raise JSONDecodeError,
   mkState (mkDisk {["bad.json" := TextFile]} ∅)
     [Log "start"; LogWarning "Could not read bad.json"]).
Proof.
  apply (proj1 (read_json_file_reraises "bad.json" false
                  (mkState (mkDisk {["bad.json" := TextFile]} ∅) [Log "start"]))
           1 JSONDecodeError);
    [reflexivity | lia | reflexivity | reflexivity].
Defined.

(** C7 (as stated, refuted): writing a set fails in [json.dump] with a
    [TypeError], which [except IOError] does not catch: the call raises
    instead of returning [None], and logs no error. *)
Lemma write_to_json_file_raises_TypeError :
  (dump_json (VSet [VInt 1; VInt 2]) "out.json" (VInt 4) [] (mkDisk ∅ ∅)).1 =
    Raise TypeError /\
  (write_to_json_file (VSet [VInt 1; VInt 2]) "out.json" []
     (mkState (mkDisk ∅ ∅) [])).1 = Raise TypeError /\
  output_log (write_to_json_file (VSet [VInt 1; VInt 2]) "out.json" []
                (mkState (mkDisk ∅ ∅) [])).2 = [].
Proof. repeat split. Qed.

(** C7 (amended): [write_to_json_file] suppresses the write failures
    that are [IOError]s: it logs an error and returns [None].  When the
    write succeeds it logs the success and returns the filename.  A
    write failure of another class (a [TypeError] for data that is not
    serializable) is not caught and is raised to the caller. *)
Theorem write_to_json_file_suppresses_IOError
    {W : Type} `{FileHost W} (data : pyval) (filename : string) (kwargs : dict)
    (st : state W) (outcome : result unit) (w' : W) :
  dump_json data filename (dict_pop "indent" (VInt 4) kwargs).1
    (dict_pop "indent" (VInt 4) kwargs).2 (host st) = (outcome, w') ->
  write_to_json_file data filename kwargs st =
    match outcome with
    | Ret _ =>
        (Ret (VStr filename),
         mkState w' (output_log st ++ [Log ("File correctly saved to: " +:+ filename)]))
    | Raise e =>
        if is_IOError e
        then (Ret VNone,
              mkState w' (output_log st ++ [LogError ("Data not saved to file " +:+ filename)]))
        else (Raise e, mkState w' (output_log st))
    end.
Proof.
  intros Hdump.
  unfold write_to_json_file, dict_pop in *. cbn [fst snd] in Hdump.
  unfold mbind, M_bind, try_except, call_host. rewrite Hdump.
  destruct outcome as [[]|e]; [done|]. by destruct (is_IOError e).
Qed.

Lemma write_to_json_file_suppresses_IOError_witness :
  write_to_json_file (VDict [("scale", VInt 2)]) "out.json" [("indent", VInt 2)]
    (mkState (mkDisk ∅ {["out.json"]}) []) =
  (Ret VNone,
   mkState (mkDisk ∅ {["out.json"]}) [LogError "Data not saved to file out.json"]).
Proof.
  apply (write_to_json_file_suppresses_IOError
           (VDict [("scale", VInt 2)]) "out.json" [("indent", VInt 2)]
           (mkState (mkDisk ∅ {["out.json"]}) [])
           (Raise PermissionError) (mkDisk ∅ {["out.json"]})).
  reflexivity.
Defined.

(** ** Theorems: level sequences *)

Lemma find_subscene_track_none (tracks : list Track) :
  Forall (fun track => get_class track <> MovieSceneSubTrack) tracks ->
  find_subscene_track tracks = None.
Proof.
  induction 1 as [|track rest Hclass _ IH]; [done|].
  cbn. by destruct (decide (get_class track = MovieSceneSubTrack)).
Qed.

(** C9: a sequence name that cannot be loaded makes
    [remove_sequence_camera] return [False] and [get_subsequences] return
    the empty list; a loaded sequence without a subscene master track
    makes [get_subsequences] return the empty list.  Nothing is raised
    and the editor's state is left as it was. *)
Theorem missing_sequence_short_circuits
    (st : state editor) (level_sequence_name camera_name : string) :
  (assets (host st) !! level_sequence_name = None ->
     remove_sequence_camera level_sequence_name camera_name st = (Ret false, st) /\
     get_subsequences level_sequence_name st = (Ret [], st)) /\
  (forall sequence,
     assets (host st) !! level_sequence_name = Some (SequenceAsset sequence) ->
     Forall (fun track => get_class track <> MovieSceneSubTrack)
       (get_master_tracks sequence) ->
     get_subsequences level_sequence_name st = (Ret [], st)).
Proof.
  split.
  - intros Hnone.
    unfold remove_sequence_camera, get_subsequences, load_asset, query_host,
      mbind, M_bind.
    by rewrite Hnone.
  - intros sequence Hsome Htracks.
    unfold get_subsequences, load_asset, query_host, mbind, M_bind.
    rewrite Hsome. cbn. by rewrite find_subscene_track_none.
Qed.

Lemma missing_sequence_short_circuits_witness :
  (remove_sequence_camera "/Game/Shots/Shot020" "ShotCam" (mkState shot_editor []) =
     (Ret false, mkState shot_editor []) /\
   get_subsequences "/Game/Shots/Shot020" (mkState shot_editor []) =
     (Ret [], mkState shot_editor [])) /\
  get_subsequences "/Game/Shots/Shot010" (mkState shot_editor []) =
    (Ret [], mkState shot_editor []).
Proof.
  split.
  - apply (proj1 (missing_sequence_short_circuits (mkState shot_editor [])
                    "/Game/Shots/Shot020" "ShotCam")).
    reflexivity.
  - apply (proj2 (missing_sequence_short_circuits (mkState shot_editor [])
                    "/Game/Shots/Shot010" "ShotCam") shot_sequence).
    + reflexivity.
    + repeat constructor; discriminate.
Defined.

(** The search stops at the first binding that has a name at all; the
    camera name is not compared with it. *)
Lemma find_camera_bind_first_named (camera_name : string) (binding : Binding)
    (rest : list Binding) :
  get_name binding <> EmptyString ->
  find_camera_bind camera_name (binding :: rest) = Some binding.
Proof.
  intros Hname. cbn. unfold str_truthy.
  by destruct (String.eqb_spec (get_name binding) EmptyString).
Qed.

(** C1 (the code at the failing input): in a sequence that binds
    ["KeyLight"] and then ["ShotCam"], the search for ["ShotCam"] selects
    the light; and asked to remove a camera ["Dolly"], which no binding
    is named, the call removes the light's tracks and the light, saves
    the sequence and returns [True]. *)
Theorem remove_sequence_camera_removes_first_binding :
  binding_named "ShotCam" (get_bindings shot_sequence) = Some shot_camera /\
  find_camera_bind "ShotCam" (get_bindings shot_sequence) = Some key_light /\
  binding_named "Dolly" (get_bindings shot_sequence) = None /\
  remove_sequence_camera "/Game/Shots/Shot010" "Dolly" (mkState shot_editor []) =
    (Ret true,
     mkState
       (mkEditor
          {["/Game/Shots/Shot010" :=
              SequenceAsset
                (mkLevelSequence [shot_camera] (get_master_tracks shot_sequence))]}
          [CloseLevelSequence; RefreshCurrentLevelSequence;
           SaveLoadedAsset "/Game/Shots/Shot010"])
       []).
Proof. repeat split; by vm_compute. Qed.

(** ** Theorems: FBX tasks *)

Lemma clean_path_undefined : "clean_path" ∉ helpers_names.
Proof. apply (bool_decide_unpack _). by vm_compute. Qed.

(** C2: for every asset, directory, file name and options, and whatever
    [clean_path] would compute, [assets.export_fbx_asset] raises
    [AttributeError] at [helpers.clean_path]: nothing is logged, no
    export task is built or run, and no path is returned. *)
Theorem export_fbx_asset_always_raises
    `{Unreal} (clean_path : string -> string) (asset : uobject)
    (directory fbx_filename : string) (export_options : option dict)
    (st : state fbx_host) :
  assets.export_fbx_asset clean_path asset directory fbx_filename export_options st =
    (Raise AttributeError, st) /\
  forall v : pyval,
    (assets.export_fbx_asset clean_path asset directory fbx_filename
       export_options st).1 <> Ret v.
Proof.
  assert (Hrun : assets.export_fbx_asset clean_path asset directory fbx_filename
                   export_options st = (Raise AttributeError, st)).
  { unfold assets.export_fbx_asset, helpers_getattr, mbind, M_bind.
    by rewrite (bool_decide_eq_false_2 _ clean_path_undefined). }
  split; [done|]. intros v. by rewrite Hrun.
Qed.

Lemma dict_get_remove_eq (key : string) (d : dict) :
  dict_get key (dict_remove key d) = None.
Proof.
  unfold dict_remove. induction d as [|[k v] d IH]; [done|].
  rewrite filter_cons. cbn [fst]. case_decide as Hk; [|done].
  cbn [dict_get]. destruct (String.eqb_spec key k); [by subst|done].
Qed.

Lemma dict_get_remove_ne (key key' : string) (d : dict) :
  key <> key' -> dict_get key (dict_remove key' d) = dict_get key d.
Proof.
  intros Hne. unfold dict_remove. induction d as [|[k v] d IH]; [done|].
  rewrite filter_cons. cbn [fst]. case_decide as Hk; cbn [dict_get].
  - by rewrite IH.
  - rewrite IH. subst k. by destruct (String.eqb_spec key key').
Qed.

Section Tasks.
Context `{Unreal}.

(** Setting properties on a host object logs at most; the store is not
    touched. *)
Lemma set_properties_host {W} (cls : unreal_class) (prefix : string) (items : dict) :
  forall (done_ : dict) (st : state W),
    host (set_properties cls prefix items done_ st).2 = host st.
Proof.
  induction items as [|[name value] rest IH]; intros done_ st; [done|].
  cbn [set_properties].
  unfold mbind, M_bind, try_except, set_editor_property, raise, mret, M_ret,
    unreal_log_warning, log_line.
  destruct (set_editor_property_error cls name value) as [e|]; cbn.
  - destruct (is_Exception e); cbn; [by rewrite IH | done].
  - by rewrite IH.
Qed.

Lemma bind_run {W A B} (m : M W A) (f : A -> M W B) (st : state W) :
  (m ≫= f) st =
    match m st with
    | (Ret a, st') => f a st'
    | (Raise e, st') => (Raise e, st')
    end.
Proof. reflexivity. Qed.

Lemma keeps_host_bind {W A B} (m : M W A) (f : A -> M W B) :
  keeps_host m -> (forall a, keeps_host (f a)) -> keeps_host (m ≫= f).
Proof.
  intros Hm Hf st. rewrite bind_run. specialize (Hm st).
  destruct (m st) as [[a|e] st']; cbn in *; [by rewrite Hf | done].
Qed.

Lemma keeps_host_ret {W A} (a : A) : keeps_host (mret a : M W A).
Proof. done. Qed.

Lemma keeps_host_raise {W A} (e : exn) : keeps_host (raise e : M W A).
Proof. done. Qed.

Lemma keeps_host_set_properties {W} (cls : unreal_class) (prefix : string)
    (items done_ : dict) :
  keeps_host (set_properties cls prefix items done_ : M W dict).
Proof. intros st. apply set_properties_host. Qed.

Lemma keeps_host_deref (l : nat) : keeps_host (deref l).
Proof. done. Qed.

Lemma keeps_host_py_items {W} (v : pyval) : keeps_host (py_items v : M W dict).
Proof. by destruct v. Qed.

Lemma deref_run (l : nat) (d : dict) (st : state fbx_host) :
  heap (host st) !! l = Some d -> deref l st = (Ret d, st).
Proof. intros Hl. unfold deref, query_host. by rewrite Hl. Qed.

Lemma heap_pop_run (l : nat) (key : string) (default : pyval) (d : dict)
    (st : state fbx_host) :
  heap (host st) !! l = Some d ->
  heap_pop l key default st =
    (Ret (dict_pop key default d).1,
     mkState
       (mkFbxHost (<[l := dict_remove key d]> (heap (host st))) (export_runs (host st)))
       (output_log st)).
Proof. intros Hl. unfold heap_pop, call_host. by rewrite Hl. Qed.

(** With a non-empty dictionary at [l], the call leaves the store as it
    was but for that dictionary, which lost the two keys; this holds
    whether the call returns a task or raises. *)
Lemma generate_fbx_import_task_with_store (default_options : nat)
    (filename destination_path : string) (destination_name : option string)
    (replace_existing automated save : bool) (l : nat) (d : dict)
    (st : state fbx_host) :
  heap (host st) !! l = Some d -> d <> [] ->
  host (generate_fbx_import_task_with default_options filename destination_path
          destination_name replace_existing automated save (Some l) st).2 =
    mkFbxHost
      (<[l := dict_remove "skeletal_mesh_import_data"
                (dict_remove "mesh_type_to_import" d)]> (heap (host st)))
      (export_runs (host st)).
Proof.
  intros Hl Hd. unfold generate_fbx_import_task_with.
  rewrite bind_run, bind_run, (deref_run l d st Hl).
  assert (Py.list_truthy d = true) as -> by (by destruct d).
  cbn [mret M_ret].
  rewrite bind_run, (heap_pop_run l _ _ d st Hl).
  set (st1 := mkState _ _).
  assert (Hl1 : heap (host st1) !! l = Some (dict_remove "mesh_type_to_import" d))
    by apply lookup_insert_eq.
  rewrite bind_run, (heap_pop_run l _ _ _ st1 Hl1).
  set (st2 := mkState _ _).
  match goal with
  | |- host (?rest st2).2 = _ => assert (Hrest : keeps_host rest)
  end.
  { apply keeps_host_bind.
    - destruct (truthy _); [|apply keeps_host_ret].
      apply keeps_host_bind; [apply keeps_host_py_items|]. intros items.
      apply keeps_host_bind; [apply keeps_host_set_properties|]. intros set_.
      apply keeps_host_ret.
    - intros sk. apply keeps_host_bind; [apply keeps_host_deref|]. intros items.
      apply keeps_host_bind; [apply keeps_host_set_properties|]. intros props.
      apply keeps_host_ret. }
  rewrite Hrest. subst st2 st1. cbn [host heap export_runs].
  by rewrite insert_insert_eq.
Qed.

End Tasks.

(** C10: called with a reference to a non-empty options dictionary,
    [generate_fbx_import_task] (in [helpers.py] and in [assets.py])
    pops ['mesh_type_to_import'] and ['skeletal_mesh_import_data'] from
    that very dictionary: after the call the caller's dictionary holds
    neither key, and its other items are as before. *)
Theorem generate_fbx_import_task_pops_caller_options
    `{Unreal} (filename destination_path : string) (destination_name : option string)
    (replace_existing automated save : bool) (l : nat) (d : dict)
    (st : state fbx_host) :
  heap (host st) !! l = Some d -> d <> [] ->
  exists d' : dict,
    heap (host (generate_fbx_import_task filename destination_path destination_name
                  replace_existing automated save (Some l) st).2) !! l = Some d' /\
    heap (host (assets.generate_fbx_import_task filename destination_path
                  destination_name replace_existing automated save (Some l) st).2) !! l
      = Some d' /\
    dict_get "mesh_type_to_import" d' = None /\
    dict_get "skeletal_mesh_import_data" d' = None /\
    forall key, key <> "mesh_type_to_import" -> key <> "skeletal_mesh_import_data" ->
      dict_get key d' = dict_get key d.
Proof.
  intros Hl Hd.
  exists (dict_remove "skeletal_mesh_import_data" (dict_remove "mesh_type_to_import" d)).
  unfold generate_fbx_import_task, assets.generate_fbx_import_task.
  rewrite !(generate_fbx_import_task_with_store _ _ _ _ _ _ _ l d st Hl Hd).
  cbn [heap]. rewrite lookup_insert_eq. repeat split.
  - rewrite dict_get_remove_ne by done. apply dict_get_remove_eq.
  - apply dict_get_remove_eq.
  - intros key Hk1 Hk2. by rewrite !dict_get_remove_ne.
Qed.

Lemma generate_fbx_import_task_pops_caller_options_witness :
  exists d' : dict,
    heap (host (generate_fbx_import_task "C:/rigs/hero.fbx" "/Game/Hero" None
                  true true true (Some 7%nat) (mkState caller_host [])).2) !! 7%nat
      = Some d' /\
    heap (host (assets.generate_fbx_import_task "C:/rigs/hero.fbx" "/Game/Hero" None
                  true true true (Some 7%nat) (mkState caller_host [])).2) !! 7%nat
      = Some d' /\
    dict_get "mesh_type_to_import" d' = None /\
    dict_get "skeletal_mesh_import_data" d' = None /\
    forall key, key <> "mesh_type_to_import" -> key <> "skeletal_mesh_import_data" ->
      dict_get key d' = dict_get key caller_options.
Proof.
  apply (generate_fbx_import_task_pops_caller_options
           "C:/rigs/hero.fbx" "/Game/Hero" None true true true 7%nat caller_options
           (mkState caller_host [])).
  - reflexivity.
  - discriminate.
Defined.

(** The caller's dictionary of the example, before and after the call. *)
Example generate_fbx_import_task_example :
  heap (host (generate_fbx_import_task "C:/rigs/hero.fbx" "/Game/Hero" None
                true true true (Some 7%nat) (mkState caller_host [])).2) !! 7%nat
    = Some [("import_materials", VBool false)] /\
  (generate_fbx_import_task "C:/rigs/hero.fbx" "/Game/Hero" None
     true true true (Some 7%nat) (mkState caller_host [])).1 =
    Ret (mkImportTask "C:/rigs/hero.fbx" "/Game/Hero" None true true true
           (mkFbxImportUI [("import_materials", VBool false)]
              (Some [("import_morph_targets", VBool true)])
              FBXIT_SKELETAL_MESH)).
Proof. split; by vm_compute. Qed.

(** * Further properties of the helpers *)

(** ** List helpers *)

Lemma getitem_in_range {A} (l : list A) (i : Z) :
  Py.in_range l i -> exists x, Py.getitem l i = Ret x.
Proof.
  unfold Py.in_range, Py.len, Py.getitem. intros Hi.
  set (n := Z.of_nat (length l)) in *.
  set (j := if i <? 0 then n + i else i).
  assert (Hj : 0 <= j < n) by (subst j; destruct (Z.ltb_spec i 0); lia).
  assert ((0 <=? j) && (j <? n) = true) as ->.
  { apply andb_true_intro; split; [apply Z.leb_le | apply Z.ltb_lt]; lia. }
  destruct (lookup_lt_is_Some_2 l (Z.to_nat j)) as [x Hx]; [subst n; lia|].
  rewrite Hx. by exists x.
Qed.

(** X1: [get_index_in_list] never raises, and for an index with
    [abs(index) < len(list_arg)] it returns [list_arg[index]], counting
    from the end when the index is negative. *)
Theorem get_index_in_list_in_range :
  (forall (A : Type) (l : list A) (i : Z) (d : A),
      exists v, get_index_in_list l i d = Ret v) /\
  (forall (A : Type) (l : list A) (i : Z) (d : A),
      Z.abs i < Py.len l ->
      get_index_in_list l i d = Py.getitem l i /\
      exists x, Py.getitem l i = Ret x /\
                l !! Z.to_nat (if i <? 0 then Py.len l + i else i) = Some x).
Proof.
  split; [intros; apply get_index_in_list_total|].
  intros A l i d Hi. unfold get_index_in_list.
  assert (Hl : Py.list_truthy l = true).
  { destruct l; [unfold Py.len in Hi; cbn [length] in Hi; lia | done]. }
  rewrite Hl. cbn [andb].
  destruct (Z.gtb_spec (Py.len l) (Z.abs i)); [|lia]. split; [done|].
  destruct (getitem_in_range l i) as [x Hx]; [unfold Py.in_range; lia|].
  exists x. split; [done|].
  unfold Py.getitem, Py.len in *.
  destruct ((0 <=? _) && _); [|done].
  destruct (l !! _) as [y|]; [|done]. congruence.
Qed.

Lemma get_index_in_list_in_range_witness :
  get_index_in_list [VInt 10; VInt 20; VInt 30] (-1) VNone = Ret (VInt 30).
Proof.
  destruct (proj2 get_index_in_list_in_range pyval
              [VInt 10; VInt 20; VInt 30] (-1) VNone) as [-> _];
    [by vm_compute | reflexivity].
Defined.

(** X2: the index [-len(list_arg)] is valid for Python and names the
    first element, but [get_index_in_list] answers with the default:
    its guard [len(list_arg) > abs(index)] excludes it. *)
Theorem get_index_in_list_minus_len {A} (x : A) (l : list A) (d : A) :
  Py.getitem (x :: l) (- Py.len (x :: l)) = Ret x /\
  get_index_in_list (x :: l) (- Py.len (x :: l)) d = Ret d.
Proof.
  split.
  - unfold Py.getitem, Py.len. set (n := Z.of_nat (length (x :: l))).
    assert (Hn : 0 < n) by (subst n; cbn [length]; lia).
    destruct (Z.ltb_spec (- n) 0); [|lia].
    replace (n + - n) with 0 by lia.
    destruct (Z.ltb_spec 0 n); [|lia]. done.
  - unfold get_index_in_list. cbn [Py.list_truthy andb].
    destruct (Z.gtb_spec (Py.len (x :: l)) (Z.abs (- Py.len (x :: l)))); [|done].
    unfold Py.len in *. lia.
Qed.


(** ** Format strings *)

(** The two-field formats of [create_folder] are the concatenations the
    model of the loop uses. *)
Lemma py_format_literal (s : string) :
  (forall c, c ∈ String.list_ascii_of_string s -> c <> "{"%char /\ c <> "}"%char) ->
  forall args, py_format s args = Some (Ret s).
Proof.
  induction s as [|c s IH]; intros Hs args; [done|].
  cbn [py_format].
  destruct (Hs c) as [Hl Hr]; [cbn; left|].
  apply Ascii.eqb_neq in Hl, Hr. rewrite Hl, Hr.
  rewrite IH; [done|]. intros c' Hc'. apply Hs. cbn. by right.
Qed.

Lemma string_app_empty_r (s : string) : s +:+ EmptyString = s.
Proof. induction s as [|c s IH]; [done|]. exact (f_equal (String c) IH). Qed.

Lemma py_format_path (root name : string) :
  py_format "{}/{}" [root; name] = Some (Ret (format_path root name)).
Proof. cbn. by rewrite string_app_empty_r. Qed.

Lemma py_format_suffix (name index : string) :
  py_format "{}{}" [name; index] = Some (Ret (name +:+ index)).
Proof. cbn. by rewrite string_app_empty_r. Qed.

(** X4: [create_temporary_directory] raises [ValueError] for every
    prefix: its format string ['{}}_tmp_'] has a closing brace on its
    own, so [str.format] fails and [tempfile.mkdtemp] is never called. *)
Theorem create_temporary_directory_always_raises
    {W : Type} `{TempHost W} (prefix : string) :
  exists run : M W string,
    create_temporary_directory prefix = Some run /\
    forall st, run st = (Raise ValueError, st).
Proof. by eexists. Qed.

(** ** Actors *)

Lemma find_actor_by_label_spec (actor_label : string) (all_actors : list Actor) :
  match find_actor_by_label actor_label all_actors with
  | Some actor =>
      exists before after,
        all_actors = before ++ actor :: after /\
        get_actor_label actor = actor_label /\
        Forall (fun a => get_actor_label a <> actor_label) before
  | None => Forall (fun a => get_actor_label a <> actor_label) all_actors
  end.
Proof.
  induction all_actors as [|actor rest IH]; [by constructor|].
  cbn [find_actor_by_label].
  destruct (String.eqb_spec (get_actor_label actor) actor_label) as [Heq|Hne].
  - exists [], rest. by repeat split.
  - destruct (find_actor_by_label actor_label rest) as [found|].
    + destruct IH as (before & after & -> & Hlabel & Hbefore).
      exists (actor :: before), after. repeat split; [done|by constructor].
    + by constructor.
Qed.

(** X5: [get_actor_by_label_in_current_level] returns the first actor of
    the level, in the editor's order, whose label is the given one, and
    [None] exactly when the label is not among the labels that
    [get_all_actors_and_labels_in_current_level] returns; it reads the
    level only. *)
Theorem get_actor_by_label_first_match
    {W : Type} `{LevelHost W} (actor_label : string) (st : state W) :
  exists found labels,
    get_actor_by_label_in_current_level actor_label st = (Ret found, st) /\
    get_all_actors_and_labels_in_current_level st =
      (Ret (get_all_level_actors (host st), labels), st) /\
    match found with
    | Some actor =>
        exists before after,
          get_all_level_actors (host st) = before ++ actor :: after /\
          get_actor_label actor = actor_label /\
          Forall (fun a => get_actor_label a <> actor_label) before
    | None => actor_label ∉ labels
    end.
Proof.
  exists (find_actor_by_label actor_label (get_all_level_actors (host st))),
         (get_actor_label <$> get_all_level_actors (host st)).
  split; [done|]. split; [done|].
  pose proof (find_actor_by_label_spec actor_label (get_all_level_actors (host st)))
    as Hspec.
  destruct (find_actor_by_label _ _); [done|].
  intros (a & Heq & Hin)%list_elem_of_fmap.
  rewrite Forall_forall in Hspec. by apply (Hspec a).
Qed.

(** ** Folders *)

Lemma string_app_assoc (a b c : string) : (a +:+ b) +:+ c = a +:+ b +:+ c.
Proof. induction a as [|x a IH]; [done|]. exact (f_equal (String x) IH). Qed.

(** Every candidate starts with the requested name. *)
Lemma candidate_prefix (k : nat) : forall name index,
  exists suffix, candidate name index k = name +:+ suffix.
Proof.
  induction k as [|k IH]; intros name index.
  - exists EmptyString. by rewrite string_app_empty_r.
  - destruct (IH (name +:+ str_int index) (index + 1)) as [suffix Hs].
    exists (str_int index +:+ suffix). cbn [candidate].
    by rewrite Hs, string_app_assoc.
Qed.

Section FolderResults.
Context {H : Type} `{DirectoryHost H}.

Lemma create_folder_loop_sound (fuel : nat) : forall (h : H) root name index name' h',
  create_folder_loop fuel h root name index = Some (name', h') ->
  exists k, (k < fuel)%nat /\
    name' = candidate name index k /\
    does_directory_exist h (format_path root name') = false /\
    (forall j, (j < k)%nat ->
       does_directory_exist h (format_path root (candidate name index j)) = true) /\
    h' = make_directory h (format_path root name').
Proof.
  induction fuel as [|fuel IH]; intros h root name index name' h' Hrun; [done|].
  cbn [create_folder_loop] in Hrun.
  destruct (does_directory_exist h (format_path root name)) eqn:Hhead; cbn [negb] in Hrun.
  - destruct (IH _ _ _ _ _ _ Hrun) as (k & Hk & -> & Hfree & Hbusy & ->).
    exists (S k). split_and!; [lia | done | done | | done].
    intros [|j] Hj; [done|]. apply Hbusy. lia.
  - injection Hrun as <- <-. exists 0%nat.
    split_and!; [lia | done | done | intros j Hj; lia | done].
Qed.

End FolderResults.

(** X6: whenever [create_folder] returns, the path it returns is
    [root/candidate] for the first candidate name that did not collide:
    every earlier candidate collided, the directory did not exist before
    the call, it is the one directory the call created, and its name
    starts with the requested name. *)
Theorem create_folder_returns_first_free
    {H : Type} `{DirectoryHost H} (fuel : nat) (h h' : H) (root name path : string) :
  create_folder fuel h root name = Some (path, h') ->
  exists (k : nat) (suffix : string),
    path = format_path root (candidate name 1 k) /\
    candidate name 1 k = name +:+ suffix /\
    does_directory_exist h path = false /\
    (forall j, (j < k)%nat ->
       does_directory_exist h (format_path root (candidate name 1 j)) = true) /\
    h' = make_directory h path.
Proof.
  unfold create_folder. intros Hrun.
  destruct (create_folder_loop fuel h root name 1) as [[name' h1]|] eqn:Hloop; [|done].
  injection Hrun as <- <-.
  destruct (create_folder_loop_sound _ _ _ _ _ _ _ Hloop)
    as (k & _ & -> & Hfree & Hbusy & ->).
  destruct (candidate_prefix k name 1) as [suffix Hs].
  exists k, suffix. by split_and!.
Qed.

Lemma create_folder_returns_first_free_witness :
  exists (k : nat) (suffix : string),
    "/Game/Target1" = format_path "/Game" (candidate "Target" 1 k) /\
    candidate "Target" 1 k = "Target" +:+ suffix /\
    does_directory_exist ({["/Game/Target"]} : gset string) "/Game/Target1" = false /\
    (forall j, (j < k)%nat ->
       does_directory_exist ({["/Game/Target"]} : gset string)
         (format_path "/Game" (candidate "Target" 1 j)) = true) /\
    make_directory ({["/Game/Target"]} : gset string) "/Game/Target1" =
      make_directory ({["/Game/Target"]} : gset string) "/Game/Target1".
Proof.
  apply (create_folder_returns_first_free 5 ({["/Game/Target"]} : gset string)).
  by vm_compute.
Defined.




(** ** Assets *)

Lemma rsplit_slash_join (package name : string) :
  "/"%char ∉ String.list_ascii_of_string name ->
  rsplit_slash (package +:+ "/" +:+ name) = Some (package, name).
Proof.
  intros Hname.
  assert (Hnone : rsplit_slash name = None).
  { induction name as [|c name IH]; [done|]. cbn in *.
    rewrite IH by (intros Hin; apply Hname; by right).
    destruct (Ascii.eqb_spec c "/"%char) as [->|]; [|done].
    exfalso. apply Hname. by left. }
  induction package as [|c package IH].
  - change (rsplit_slash (String "/"%char name) = Some (EmptyString, name)).
    cbn [rsplit_slash]. by rewrite Hnone.
  - change (String c package +:+ "/" +:+ name)
      with (String c (package +:+ "/" +:+ name)).
    cbn [rsplit_slash]. by rewrite IH.
Qed.

Lemma rsplit_slash_none (s : string) :
  "/"%char ∉ String.list_ascii_of_string s -> rsplit_slash s = None.
Proof.
  induction s as [|c s IH]; [done|]. intros Hs. cbn in *.
  rewrite IH by (intros Hin; apply Hs; by right).
  destruct (Ascii.eqb_spec c "/"%char) as [->|]; [|done].
  exfalso. apply Hs. by left.
Qed.

Lemma rsplit_slash_none_inv (s : string) :
  rsplit_slash s = None -> "/"%char ∉ String.list_ascii_of_string s.
Proof.
  induction s as [|c s IH]; [intros _; by apply not_elem_of_nil|].
  cbn [rsplit_slash String.list_ascii_of_string].
  destruct (rsplit_slash s) as [[]|]; [done|].
  destruct (Ascii.eqb c "/"%char) eqn:Hc; [done|]. intros _.
  apply Ascii.eqb_neq in Hc.
  intros [Heq|Hin]%elem_of_cons; [done|]. by apply IH.
Qed.

(** What [rsplit('/', 1)] cuts apart, ['/'] puts together again. *)
Lemma rsplit_slash_round_trip (s before after : string) :
  rsplit_slash s = Some (before, after) ->
  s = before +:+ "/" +:+ after /\
  "/"%char ∉ String.list_ascii_of_string after.
Proof.
  revert before after. induction s as [|c s IH]; intros before after; [done|].
  cbn [rsplit_slash].
  destruct (rsplit_slash s) as [[b a]|] eqn:Hs.
  - intros [= <- <-]. destruct (IH b a eq_refl) as [-> Ha]. by split.
  - destruct (Ascii.eqb_spec c "/"%char) as [->|]; [|done].
    intros [= <- <-]. split; [done|]. by apply rsplit_slash_none_inv.
Qed.

(** X8: [create_asset] looks at the asset path (the editor's unique
    name for it when [unique_name] is set).  If an asset exists there it
    is loaded and nothing is created.  If none exists, the path is cut
    at its last ['/'] and the editor is asked to create the part after
    it in the package before it; a path without any ['/'] raises
    [IndexError] and nothing is created. *)
Theorem create_asset_outcomes
    {W Obj : Type} `{AssetToolsHost W Obj} (asset_path : string) (unique_name : bool)
    (asset_class asset_factory : pyval) (kwargs : dict) (st : state W) :
  let target :=
    if unique_name
    then (create_unique_asset_name asset_path EmptyString (host st)).1
    else asset_path in
  (does_asset_exist target (host st) = true ->
     create_asset asset_path unique_name asset_class asset_factory kwargs st =
       (Ret (unreal_load_asset target (host st)), st)) /\
  (does_asset_exist target (host st) = false ->
     forall package name,
       target = package +:+ "/" +:+ name ->
       "/"%char ∉ String.list_ascii_of_string name ->
       create_asset asset_path unique_name asset_class asset_factory kwargs st =
         (Ret (tools_create_asset name package asset_class asset_factory kwargs
                 (host st)).1,
          mkState
            (tools_create_asset name package asset_class asset_factory kwargs
               (host st)).2
            (output_log st))) /\
  (does_asset_exist target (host st) = false ->
     "/"%char ∉ String.list_ascii_of_string target ->
     create_asset asset_path unique_name asset_class asset_factory kwargs st =
       (Raise IndexError, st)).
Proof.
  intros target.
  assert (Hstart : forall k : string -> M W (option Obj),
    ((if unique_name
      then '(unique_path, asset_name) ← get_asset_unique_name asset_path EmptyString;
           mret unique_path
      else mret asset_path) ≫= k) st = k target st).
  { intros k. subst target. destruct unique_name; [|done].
    unfold get_asset_unique_name, query_host, mbind, M_bind. cbn.
    by destruct (create_unique_asset_name asset_path EmptyString (host st)). }
  unfold create_asset. rewrite Hstart.
  unfold asset_exists, query_host, call_host, lift_result, mbind, M_bind, rsplit1.
  split_and!.
  - intros ->. done.
  - intros -> package name Htarget Hname.
    rewrite Htarget, (rsplit_slash_join package name Hname).
    assert (Py.getitem [package; name] 0 = Ret package) as -> by reflexivity.
    assert (Py.getitem [package; name] 1 = Ret name) as -> by reflexivity.
    cbn. by destruct (tools_create_asset _ _ _ _ _ _).
  - intros -> Hno. rewrite (rsplit_slash_none target Hno).
    assert (Py.getitem [target] 0 = Ret target) as -> by reflexivity.
    by assert (Py.getitem [target] 1 = Raise IndexError) as -> by reflexivity.
Qed.

Lemma create_asset_outcomes_witness :
  create_asset "Chair" false (VStr "StaticMesh") VNone []
    (mkState (∅ : gmap string string) []) =
    (Raise IndexError, mkState (∅ : gmap string string) []) /\
  create_asset "/Game/Props/Chair" false (VStr "StaticMesh") VNone []
    (mkState (∅ : gmap string string) []) =
    (Ret (Some "/Game/Props/Chair"),
     mkState ({["/Game/Props/Chair" := "StaticMesh"]} : gmap string string) []).
Proof.
  split.
  - apply (proj2 (proj2 (create_asset_outcomes (Obj := string) "Chair" false
                           (VStr "StaticMesh") VNone []
                           (mkState (∅ : gmap string string) []))));
      [reflexivity|].
    apply (bool_decide_unpack _). by vm_compute.
  - assert (Hname : "/"%char ∉ String.list_ascii_of_string "Chair")
      by (apply (bool_decide_unpack _); by vm_compute).
    assert (Hfree : does_asset_exist "/Game/Props/Chair" (∅ : gmap string string) = false)
      by reflexivity.
    by rewrite (proj1 (proj2 (create_asset_outcomes (Obj := string)
                                "/Game/Props/Chair" false (VStr "StaticMesh") VNone []
                                (mkState (∅ : gmap string string) [])))
                  Hfree "/Game/Props" "Chair" (eq_refl "/Game/Props/Chair") Hname).
Defined.

(** ** Import and export tasks *)

Lemma for_each_log {W} (line : string -> string) (l : list string) (st : state W) :
  for_each l (fun x => unreal_log (line x)) st =
    (Ret tt, mkState (host st) (output_log st ++ (Log ∘ line <$> l))).
Proof.
  revert st. induction l as [|x l IH]; intros [h lg].
  - cbn. by rewrite app_nil_r.
  - cbn [for_each]. rewrite bind_run. cbn. rewrite IH. cbn.
    by rewrite <- app_assoc.
Qed.

Section Tasks.
Context `{Unreal}.

(** The per-item [try]/[except] of the task builders in closed form:
    the accepted items are set, in order, and every refused item leaves
    one warning. *)
Lemma set_properties_spec {W} (cls : unreal_class) (prefix : string) (items : dict) :
  refuses_with_exceptions cls items ->
  forall (done_ : dict) (st : state W),
    set_properties cls prefix items done_ st =
      (Ret (done_ ++ filter (settable cls) items),
       mkState (host st)
         (output_log st ++
            (refusal_warning prefix <$> filter (fun item => ~ settable cls item) items))).
Proof.
  induction items as [|[name value] rest IH]; intros Hexc done_ [h lg].
  - cbn. by rewrite !app_nil_r.
  - assert (Hrest : refuses_with_exceptions cls rest).
    { intros n v e Hin. apply Hexc. by right. }
    cbn [set_properties]. rewrite bind_run.
    unfold try_except, set_editor_property, settable. rewrite !filter_cons.
    cbn [fst snd].
    destruct (set_editor_property_error cls name value) as [e|] eqn:Herr.
    + unfold raise, mbind, M_bind, mret, M_ret.
      rewrite (Hexc name value e (list_elem_of_here _ _) Herr).
      rewrite decide_False by done. rewrite decide_True by done.
      cbn. rewrite (IH Hrest). cbn. by rewrite <- app_assoc.
    + unfold raise, mbind, M_bind, mret, M_ret.
      rewrite decide_True by done. rewrite decide_False by (by intros []).
      cbn. rewrite (IH Hrest). cbn. by rewrite <- app_assoc.
Qed.

End Tasks.

Lemma get_first_in_list_cons {A} (x : A) (l : list A) (d : A) :
  get_first_in_list (x :: l) d = Ret x.
Proof.
  unfold get_first_in_list, get_index_in_list, Py.len.
  cbn [Py.list_truthy andb Z.abs].
  destruct (Z.gtb_spec (Z.of_nat (length (x :: l))) 0) as [_|Hle];
    [|cbn [length] in Hle; lia].
  by apply getitem_nonneg.
Qed.

Lemma unreal_log_run {W} (msg : string) (st : state W) :
  unreal_log msg st = (Ret tt, mkState (host st) (output_log st ++ [Log msg])).
Proof. reflexivity. Qed.

Section ImportTasks.
Context `{Unreal} `{Importer}.

Lemma import_assets_loop_spec (asset_tasks : list AssetImportTask) :
  forall (imported_paths : list string) (st : state fbx_host),
    import_assets_loop asset_tasks imported_paths st =
      (Ret (imported_paths ++ concat (imported_object_paths (host st) <$> asset_tasks)),
       mkState (host st)
         (output_log st ++ concat (import_lines (host st) <$> asset_tasks))).
Proof.
  induction asset_tasks as [|task rest IH]; intros imported_paths [h lg].
  - cbn. by rewrite !app_nil_r.
  - cbn [import_assets_loop].
    rewrite bind_run, unreal_log_run, bind_run. unfold query_host.
    rewrite bind_run, (for_each_log (fun p => "Imported object: " +:+ p)).
    rewrite IH. unfold import_lines. cbn [host output_log fmap list_fmap concat].
    by rewrite <- !app_assoc.
Qed.

Lemma import_assets_run (asset_tasks : list AssetImportTask) (st : state fbx_host) :
  import_assets asset_tasks st =
    (Ret (concat (imported_object_paths (import_asset_tasks asset_tasks (host st))
                    <$> asset_tasks)),
     mkState (import_asset_tasks asset_tasks (host st))
       (output_log st ++
          concat (import_lines (import_asset_tasks asset_tasks (host st))
                    <$> asset_tasks))).
Proof.
  unfold import_assets. rewrite bind_run. cbn. by rewrite import_assets_loop_spec.
Qed.

(** X9: [import_assets] never raises: it returns the imported object
    paths of all tasks, in task order, and logs one line for each task
    followed by one line for each object that task imported. *)
Theorem import_assets_returns_all_paths
    (asset_tasks : list AssetImportTask) (st : state fbx_host) :
  let h' := import_asset_tasks asset_tasks (host st) in
  exists lines,
    import_assets asset_tasks st =
      (Ret (concat (imported_object_paths h' <$> asset_tasks)),
       mkState h' (output_log st ++ lines)) /\
    lines = concat (import_lines h' <$> asset_tasks) /\
    length lines =
      (length asset_tasks
       + length (concat (imported_object_paths h' <$> asset_tasks)))%nat.
Proof.
  intros h'. exists (concat (import_lines h' <$> asset_tasks)).
  split; [apply import_assets_run|]. split; [done|].
  generalize h'. clear h' st. intros h'.
  induction asset_tasks as [|task rest IH]; [done|].
  cbn. rewrite !length_app, length_fmap, IH. lia.
Qed.

(** X10: once the import task has been built, [import_fbx_asset] runs
    it and returns the first imported object path, or the empty string
    when the editor imported nothing; an exception raised while building
    the task is raised to the caller and nothing is imported. *)
Theorem import_fbx_asset_first_path
    (filename destination_path : string) (destination_name : option string)
    (import_options : option nat) (st : state fbx_host) :
  match generate_fbx_import_task filename destination_path destination_name
          true true true import_options st with
  | (Ret task, st1) =>
      let h' := import_asset_tasks [task] (host st1) in
      (import_fbx_asset filename destination_path destination_name import_options st).1 =
        Ret (match imported_object_paths h' task with
             | first :: _ => first
             | [] => EmptyString
             end) /\
      host (import_fbx_asset filename destination_path destination_name
              import_options st).2 = h'
  | (Raise e, st1) =>
      import_fbx_asset filename destination_path destination_name import_options st =
        (Raise e, st1)
  end.
Proof.
  unfold import_fbx_asset. rewrite bind_run.
  destruct (generate_fbx_import_task _ _ _ _ _ _ _ st) as [[task|e] st1];
    cbn beta iota; [|done].
  rewrite bind_run, import_assets_run.
  cbn [concat fmap list_fmap]. rewrite app_nil_r.
  unfold lift_result. cbn [fst snd host]. split; [|done].
  destruct (imported_object_paths _ task) as [|first paths]; [done|].
  by rewrite get_first_in_list_cons.
Qed.

End ImportTasks.

Section Tasks.
Context `{Unreal}.

(** X11: [generate_asset_fbx_export_task] works best-effort on its
    options (the caller's when not empty, the module's defaults
    otherwise): an option the editor refuses is skipped with one
    warning, the accepted ones reach the task in order.  A static or
    skeletal mesh gets the exporter of its class; any other asset gives
    [None] and one more warning.  The editor's store is not touched. *)
Theorem generate_asset_fbx_export_task_outcomes
    (asset : uobject) (filename : string) (replace_identical automated : bool)
    (fbx_options : option dict) (st : state fbx_host) (chosen : dict) :
  chosen = match fbx_options with
           | Some (item :: items) => item :: items
           | _ => DEFAULT_ASSETS_FBX_EXPORT_OPTIONS
           end ->
  refuses_with_exceptions FbxExportOption_class chosen ->
  let warnings :=
    refusal_warning "Was not possible to set FBX Export property: "
      <$> filter (fun item => ~ settable FbxExportOption_class item) chosen in
  let task exporter :=
    mkExportTask filename replace_identical automated asset
      (filter (settable FbxExportOption_class) chosen) exporter in
  assets.generate_asset_fbx_export_task asset filename replace_identical automated
    fbx_options st =
    match get_object_class asset with
    | StaticMesh =>
        (Ret (Some (task StaticMeshExporterFBX)),
         mkState (host st) (output_log st ++ warnings))
    | SkeletalMesh =>
        (Ret (Some (task SkeletalMeshExporterFBX)),
         mkState (host st) (output_log st ++ warnings))
    | OtherClass c =>
        (Ret None,
         mkState (host st)
           (output_log st ++ warnings ++
              [LogWarning ("Asset Type " +:+ dquote +:+ object_class_str (OtherClass c)
                             +:+ dquote +:+ " has not a compatible exporter!")]))
    end.
Proof.
  intros -> Hexc warnings task.
  unfold assets.generate_asset_fbx_export_task. rewrite bind_run.
  rewrite (set_properties_spec _ _ _ Hexc). cbn [app].
  destruct (get_object_class asset); [done | done |].
  rewrite bind_run. cbn. by rewrite <- app_assoc.
Qed.

End Tasks.

Lemma generate_asset_fbx_export_task_outcomes_witness :
  assets.generate_asset_fbx_export_task (H := picky_unreal)
    (mkObject "T_Wood" (OtherClass "Texture2D")) "C:/out/T_Wood.fbx" true true
    (Some [("ascii", VBool true); ("level_of_detail", VInt 2)])
    (mkState (mkFbxHost ∅ []) []) =
  (Ret None,
   mkState (mkFbxHost ∅ [])
     [LogWarning "Was not possible to set FBX Export property: level_of_detail: 2";
      LogWarning ("Asset Type " +:+ dquote +:+ "Texture2D" +:+ dquote
                    +:+ " has not a compatible exporter!")]).
Proof.
  rewrite (generate_asset_fbx_export_task_outcomes (H := picky_unreal)
             (mkObject "T_Wood" (OtherClass "Texture2D")) "C:/out/T_Wood.fbx" true true
             (Some [("ascii", VBool true); ("level_of_detail", VInt 2)])
             (mkState (mkFbxHost ∅ []) [])
             [("ascii", VBool true); ("level_of_detail", VInt 2)] eq_refl).
  - reflexivity.
  - intros name value e _. cbn. by destruct value; intros [= <-].
Defined.

Section Tasks.
Context `{Unreal}.

Lemma choose_options_run (default_options : nat) (fbx_options : option nat)
    (st : state fbx_host) :
  (forall l, fbx_options = Some l -> is_Some (heap (host st) !! l)) ->
  (match fbx_options with
   | None => mret default_options
   | Some l => d ← deref l; mret (if Py.list_truthy d then l else default_options)
   end : M fbx_host nat) st =
    (Ret (chosen_options default_options fbx_options (host st)), st).
Proof.
  intros Halloc. destruct fbx_options as [l|]; [|done].
  destruct (Halloc l eq_refl) as [d Hd].
  rewrite bind_run, (deref_run l d st Hd). unfold chosen_options. rewrite Hd.
  by destruct d.
Qed.

(** [generate_fbx_import_task] in closed form.  [c] is the dictionary
    the call works on and [d] its items before the call. *)
Lemma generate_fbx_import_task_with_run (default_options : nat)
    (filename destination_path : string) (destination_name : option string)
    (replace_existing automated save : bool) (fbx_options : option nat)
    (st : state fbx_host) (c : nat) (d : dict) :
  (forall l, fbx_options = Some l -> is_Some (heap (host st) !! l)) ->
  c = chosen_options default_options fbx_options (host st) ->
  heap (host st) !! c = Some d ->
  let as_skeletal := (dict_pop "mesh_type_to_import" (VBool false) d).1 in
  let d1 := dict_remove "mesh_type_to_import" d in
  let sk := (dict_pop "skeletal_mesh_import_data" (VDict []) d1).1 in
  let d2 := dict_remove "skeletal_mesh_import_data" d1 in
  let st2 := mkState (mkFbxHost (<[c := d2]> (heap (host st))) (export_runs (host st)))
               (output_log st) in
  let name := match destination_name with
              | Some n => if str_truthy n then Some n else None
              | None => None
              end in
  let mesh := if truthy as_skeletal then FBXIT_SKELETAL_MESH else FBXIT_STATIC_MESH in
  let ui_prefix := "Was not possible to set FBX Import property: " in
  let sk_prefix := "Was not possible to set Skeletal Mesh FBX Import property: " in
  let ui_warnings :=
    refusal_warning ui_prefix <$> filter (fun i => ~ settable FbxImportUI_class i) d2 in
  refuses_with_exceptions FbxImportUI_class d2 ->
  (forall items, sk = VDict items ->
     refuses_with_exceptions FbxSkeletalMeshImportData_class items) ->
  generate_fbx_import_task_with default_options filename destination_path
    destination_name replace_existing automated save fbx_options st =
    if truthy sk then
      match sk with
      | VDict items =>
          (Ret (mkImportTask filename destination_path name replace_existing
                  automated save
                  (mkFbxImportUI (filter (settable FbxImportUI_class) d2)
                     (Some (filter (settable FbxSkeletalMeshImportData_class) items))
                     mesh)),
           mkState (host st2)
             (output_log st ++
                (refusal_warning sk_prefix
                   <$> filter (fun i => ~ settable FbxSkeletalMeshImportData_class i) items)
                ++ ui_warnings))
      | _ => (Raise AttributeError, st2)
      end
    else
      (Ret (mkImportTask filename destination_path name replace_existing automated save
              (mkFbxImportUI (filter (settable FbxImportUI_class) d2) None mesh)),
       mkState (host st2) (output_log st ++ ui_warnings)).
Proof.
  intros Halloc Hc Hd as_skeletal d1 sk d2 st2 name mesh ui_prefix sk_prefix
    ui_warnings Hui Hsk.
  unfold generate_fbx_import_task_with.
  rewrite bind_run, (choose_options_run _ _ _ Halloc), <- Hc.
  rewrite bind_run, (heap_pop_run c _ _ d st Hd).
  set (st1 := mkState _ _).
  assert (Hd1 : heap (host st1) !! c = Some d1) by apply lookup_insert_eq.
  rewrite bind_run, (heap_pop_run c _ _ _ st1 Hd1).
  assert (Hst2 : mkState
                   (mkFbxHost (<[c := dict_remove "skeletal_mesh_import_data" d1]>
                                 (heap (host st1))) (export_runs (host st1)))
                   (output_log st1) = st2).
  { subst st1 st2 d2. cbn [host heap export_runs output_log].
    by rewrite insert_insert_eq. }
  rewrite Hst2. fold as_skeletal sk.
  assert (Hd2 : heap (host st2) !! c = Some d2) by apply lookup_insert_eq.
  rewrite bind_run.
  destruct (truthy sk) eqn:Htruthy.
  - destruct sk as [| | | | | |items] eqn:Esk; try done.
    rewrite bind_run. cbn [py_items mret M_ret].
    rewrite bind_run, (set_properties_spec _ _ _ (Hsk items eq_refl)).
    cbn [mret M_ret app].
    rewrite bind_run, deref_run with (d := d2) by done.
    rewrite bind_run, (set_properties_spec _ _ _ Hui).
    cbn [mret M_ret app host output_log]. by rewrite <- app_assoc.
  - cbn [mret M_ret].
    rewrite bind_run, deref_run with (d := d2) by done.
    rewrite bind_run, (set_properties_spec _ _ _ Hui).
    by cbn [mret M_ret app host output_log].
Qed.

End Tasks.

Section Tasks.
Context `{Unreal}.

Lemma chosen_options_caller (default_options l : nat) (d : dict) (h : fbx_host) :
  heap h !! l = Some d -> d <> [] -> chosen_options default_options (Some l) h = l.
Proof. intros Hl Hd. unfold chosen_options. rewrite Hl. by destruct d. Qed.

(** X12: built from a caller's non-empty options whose
    ['skeletal_mesh_import_data'] is absent, false or a dictionary,
    the import task (of [helpers.py] and of [assets.py]) imports a
    skeletal mesh exactly when ['mesh_type_to_import'] is present and
    true, carries the options other than these two keys that the editor
    accepted, in order, and carries the accepted skeletal options when
    that dictionary is not empty. *)
Theorem generate_fbx_import_task_builds_task
    (filename destination_path : string) (destination_name : option string)
    (replace_existing automated save : bool) (l : nat) (d : dict)
    (st : state fbx_host) :
  heap (host st) !! l = Some d -> d <> [] ->
  let as_skeletal :=
    match dict_get "mesh_type_to_import" d with Some v => v | None => VBool false end in
  let sk :=
    match dict_get "skeletal_mesh_import_data" d with Some v => v | None => VDict [] end in
  let d2 := dict_remove "skeletal_mesh_import_data" (dict_remove "mesh_type_to_import" d) in
  refuses_with_exceptions FbxImportUI_class d2 ->
  (forall items, sk = VDict items ->
     refuses_with_exceptions FbxSkeletalMeshImportData_class items) ->
  (truthy sk = true -> exists items, sk = VDict items) ->
  let task :=
    mkImportTask filename destination_path
      (match destination_name with
       | Some n => if str_truthy n then Some n else None
       | None => None
       end)
      replace_existing automated save
      (mkFbxImportUI (filter (settable FbxImportUI_class) d2)
         (match sk with
          | VDict (item :: items) =>
              Some (filter (settable FbxSkeletalMeshImportData_class) (item :: items))
          | _ => None
          end)
         (if truthy as_skeletal then FBXIT_SKELETAL_MESH else FBXIT_STATIC_MESH)) in
  (generate_fbx_import_task filename destination_path destination_name
     replace_existing automated save (Some l) st).1 = Ret task /\
  (assets.generate_fbx_import_task filename destination_path destination_name
     replace_existing automated save (Some l) st).1 = Ret task.
Proof.
  intros Hl Hd as_skeletal sk d2 Hui Hsk Hdict task.
  assert (Hrun : forall default_options,
    (generate_fbx_import_task_with default_options filename destination_path
       destination_name replace_existing automated save (Some l) st).1 = Ret task).
  { intros default_options.
    rewrite (generate_fbx_import_task_with_run default_options _ _ _ _ _ _ (Some l) st l d);
      [ | intros ? [= <-]; by rewrite Hl
        | by rewrite (chosen_options_caller _ l d)
        | done
        | done
        | unfold dict_pop; cbn [fst]; rewrite dict_get_remove_ne by done; apply Hsk ].
    unfold dict_pop. cbn [fst]. rewrite dict_get_remove_ne by done.
    fold sk as_skeletal d2. subst task.
    destruct (truthy sk) eqn:Htruthy; [|by destruct sk as [| | | | | |[|]]].
    destruct (Hdict eq_refl) as [items Hitems]. rewrite Hitems in *.
    by destruct items. }
  split; apply Hrun.
Qed.

(** X13: when ['skeletal_mesh_import_data'] holds a value that is true
    but is not a dictionary, [generate_fbx_import_task] raises
    [AttributeError] at [.items()]: by then both keys have been popped
    from the caller's dictionary, and nothing has been logged. *)
Theorem generate_fbx_import_task_bad_skeletal_data
    (filename destination_path : string) (destination_name : option string)
    (replace_existing automated save : bool) (l : nat) (d : dict) (v : pyval)
    (st : state fbx_host) :
  heap (host st) !! l = Some d ->
  dict_get "skeletal_mesh_import_data" d = Some v ->
  truthy v = true -> (forall items, v <> VDict items) ->
  generate_fbx_import_task filename destination_path destination_name
    replace_existing automated save (Some l) st =
    (Raise AttributeError,
     mkState
       (mkFbxHost
          (<[l := dict_remove "skeletal_mesh_import_data"
                    (dict_remove "mesh_type_to_import" d)]> (heap (host st)))
          (export_runs (host st)))
       (output_log st)).
Proof.
  intros Hl Hv Htruthy Hnot.
  assert (Hd : d <> []) by (by destruct d).
  assert (Halloc : forall l', Some l = Some l' -> is_Some (heap (host st) !! l')).
  { intros ? [= <-]. by rewrite Hl. }
  unfold generate_fbx_import_task, generate_fbx_import_task_with.
  rewrite bind_run, (choose_options_run _ _ _ Halloc),
    (chosen_options_caller _ l d) by done.
  rewrite bind_run, (heap_pop_run l _ _ d st Hl).
  set (st1 := mkState _ _).
  assert (Hd1 : heap (host st1) !! l = Some (dict_remove "mesh_type_to_import" d))
    by apply lookup_insert_eq.
  rewrite bind_run, (heap_pop_run l _ _ _ st1 Hd1).
  unfold dict_pop. cbn [fst]. rewrite dict_get_remove_ne, Hv by done.
  rewrite bind_run, Htruthy.
  subst st1. cbn [host heap export_runs output_log]. rewrite insert_insert_eq.
  destruct v; try done. by destruct (Hnot items).
Qed.

(** X14: called without options, or with an empty dictionary, the task
    builder works on the module's default options.  With the defaults
    as [helpers.py] defines them, the task imports a static mesh without
    skeletal data, carries the defaults that the editor accepted, and
    the store, the default dictionary included, is as before. *)
Theorem generate_fbx_import_task_defaults
    (filename destination_path : string) (destination_name : option string)
    (replace_existing automated save : bool) (fbx_options : option nat)
    (st : state fbx_host) :
  heap (host st) !! DEFAULT_FBX_IMPORT_OPTIONS = Some default_import_options ->
  (fbx_options = None \/ exists l, fbx_options = Some l /\ heap (host st) !! l = Some []) ->
  refuses_with_exceptions FbxImportUI_class default_import_options ->
  generate_fbx_import_task filename destination_path destination_name
    replace_existing automated save fbx_options st =
    (Ret (mkImportTask filename destination_path
            (match destination_name with
             | Some n => if str_truthy n then Some n else None
             | None => None
             end)
            replace_existing automated save
            (mkFbxImportUI (filter (settable FbxImportUI_class) default_import_options)
               None FBXIT_STATIC_MESH)),
     mkState (host st)
       (output_log st ++
          (refusal_warning "Was not possible to set FBX Import property: "
             <$> filter (fun i => ~ settable FbxImportUI_class i)
                   default_import_options))).
Proof.
  intros Hdefault Hoptions Hui. unfold generate_fbx_import_task.
  assert (Hsame : dict_remove "skeletal_mesh_import_data"
                    (dict_remove "mesh_type_to_import" default_import_options) =
                  default_import_options) by reflexivity.
  rewrite (generate_fbx_import_task_with_run _ _ _ _ _ _ _ fbx_options st
             DEFAULT_FBX_IMPORT_OPTIONS default_import_options).
  - cbn [dict_pop fst truthy length Nat.eqb negb]. rewrite Hsame.
    rewrite insert_id by done. by destruct st as [[] ?].
  - intros l ->. destruct Hoptions as [|(l' & [= <-] & Hl')]; [done|].
    by rewrite Hl'.
  - unfold chosen_options.
    destruct Hoptions as [->|(l' & -> & Hl')]; [done|]. by rewrite Hl'.
  - done.
  - by rewrite Hsame.
  - cbn [dict_pop fst]. intros items [= <-]. intros ? ? ? Hin.
    by apply elem_of_nil in Hin.
Qed.

End Tasks.

Lemma generate_fbx_import_task_bad_skeletal_data_witness :
  generate_fbx_import_task "C:/rigs/hero.fbx" "/Game/Hero" None true true true
    (Some 7%nat)
    (mkState (mkFbxHost {[7%nat := [("skeletal_mesh_import_data", VBool true);
                                    ("import_materials", VBool true)]]} []) []) =
  (Raise AttributeError,
   mkState (mkFbxHost (<[7%nat := [("import_materials", VBool true)]]>
                         {[7%nat := [("skeletal_mesh_import_data", VBool true);
                                     ("import_materials", VBool true)]]}) []) []).
Proof.
  apply (generate_fbx_import_task_bad_skeletal_data
           "C:/rigs/hero.fbx" "/Game/Hero" None true true true 7%nat
           [("skeletal_mesh_import_data", VBool true); ("import_materials", VBool true)]
           (VBool true)); done.
Defined.

Lemma permissive_never_refuses (cls : unreal_class) (items : dict) :
  refuses_with_exceptions cls items.
Proof. by intros name value e _ [=]. Qed.

Lemma generate_fbx_import_task_builds_task_witness :
  (generate_fbx_import_task "C:/rigs/hero.fbx" "/Game/Hero" (Some "SK_Hero")
     true true false (Some 7%nat) (mkState caller_host [])).1 =
    Ret (mkImportTask "C:/rigs/hero.fbx" "/Game/Hero" (Some "SK_Hero") true true false
           (mkFbxImportUI [("import_materials", VBool false)]
              (Some [("import_morph_targets", VBool true)]) FBXIT_SKELETAL_MESH)) /\
  (assets.generate_fbx_import_task "C:/rigs/hero.fbx" "/Game/Hero" (Some "SK_Hero")
     true true false (Some 7%nat) (mkState caller_host [])).1 =
    Ret (mkImportTask "C:/rigs/hero.fbx" "/Game/Hero" (Some "SK_Hero") true true false
           (mkFbxImportUI [("import_materials", VBool false)]
              (Some [("import_morph_targets", VBool true)]) FBXIT_SKELETAL_MESH)).
Proof.
  assert (Hl : heap caller_host !! 7%nat = Some caller_options) by reflexivity.
  assert (Hd : caller_options <> []) by discriminate.
  destruct (generate_fbx_import_task_builds_task
              "C:/rigs/hero.fbx" "/Game/Hero" (Some "SK_Hero") true true false
              7%nat caller_options (mkState caller_host []) Hl Hd
              (permissive_never_refuses _ _)
              (fun items _ => permissive_never_refuses _ items)
              (fun _ => ex_intro _ _ eq_refl)) as [Hhelpers Hassets].
  split; [rewrite Hhelpers | rewrite Hassets]; reflexivity.
Defined.

Lemma generate_fbx_import_task_defaults_witness :
  generate_fbx_import_task "C:/props/chair.fbx" "/Game/Props" None true true true None
    (mkState caller_host []) =
  (Ret (mkImportTask "C:/props/chair.fbx" "/Game/Props" None true true true
          (mkFbxImportUI default_import_options None FBXIT_STATIC_MESH)),
   mkState caller_host []).
Proof.
  assert (Hdefault : heap caller_host !! DEFAULT_FBX_IMPORT_OPTIONS
                     = Some default_import_options) by reflexivity.
  rewrite (generate_fbx_import_task_defaults
             "C:/props/chair.fbx" "/Game/Props" None true true true None
             (mkState caller_host []) Hdefault (or_introl eq_refl)
             (permissive_never_refuses _ _)).
  reflexivity.
Defined.

(** ** JSON files, written and read back *)

(** X15: when the write succeeds and the file system then reports the
    file as not empty and gives the written data back, [read_json_file]
    applied to the filename that [write_to_json_file] returned yields
    the data, raises nothing and logs nothing; the write logged its one
    success line. *)
Theorem write_then_read_json_file
    {W : Type} `{FileHost W} (data : pyval) (filename : string) (kwargs : dict)
    (maintain_order : bool) (st : state W) (w' : W) (size : Z) :
  dump_json data filename (dict_pop "indent" (VInt 4) kwargs).1
    (dict_pop "indent" (VInt 4) kwargs).2 (host st) = (Ret tt, w') ->
  stat_size filename w' = Ret size -> size <> 0 ->
  load_json filename maintain_order w' = Ret data ->
  let st1 := mkState w'
               (output_log st ++ [Log ("File correctly saved to: " +:+ filename)]) in
  write_to_json_file data filename kwargs st = (Ret (VStr filename), st1) /\
  read_json_file filename maintain_order st1 = (Ret data, st1).
Proof.
  intros Hdump Hstat Hsize Hload st1. split.
  - unfold write_to_json_file, dict_pop in *. cbn [fst snd] in Hdump.
    unfold mbind, M_bind, try_except, call_host. by rewrite Hdump.
  - rewrite (read_json_file_after_stat filename maintain_order st1 size Hstat).
    destruct (Z.eqb_spec size 0); [done|]. cbn [host st1]. by rewrite Hload.
Qed.

Lemma write_then_read_json_file_witness :
  write_to_json_file (VDict [("import_materials", VBool true)]) "options.json" []
    (mkState (mkDisk ∅ ∅) []) =
    (Ret (VStr "options.json"),
     mkState (mkDisk {["options.json" := JsonFile (VDict [("import_materials", VBool true)])]} ∅)
       [Log "File correctly saved to: options.json"]) /\
  read_json_file "options.json" true
    (mkState (mkDisk {["options.json" := JsonFile (VDict [("import_materials", VBool true)])]} ∅)
       [Log "File correctly saved to: options.json"]) =
    (Ret (VDict [("import_materials", VBool true)]),
     mkState (mkDisk {["options.json" := JsonFile (VDict [("import_materials", VBool true)])]} ∅)
       [Log "File correctly saved to: options.json"]).
Proof.
  apply (write_then_read_json_file (VDict [("import_materials", VBool true)])
           "options.json" [] true (mkState (mkDisk ∅ ∅) [])
           (mkDisk {["options.json" := JsonFile (VDict [("import_materials", VBool true)])]} ∅)
           1);
    [reflexivity | reflexivity | lia | reflexivity].
Defined.

(** ** Level sequences *)

Lemma find_subscene_track_first (before after : list Track) (track : Track) :
  Forall (fun t => get_class t <> MovieSceneSubTrack) before ->
  get_class track = MovieSceneSubTrack ->
  find_subscene_track (before ++ track :: after) = Some track.
Proof.
  intros Hbefore Hclass. induction Hbefore as [|t before Ht _ IH].
  - cbn. by rewrite decide_True.
  - cbn. by rewrite decide_False.
Qed.

(** X16: for a loaded sequence, [get_subsequences] returns the sections
    of the first master track, in the sequence's order, whose class is
    [MovieSceneSubTrack]; later subscene tracks are not looked at, and
    the editor is left as it was. *)
Theorem get_subsequences_first_subscene_track
    (st : state editor) (level_sequence_name : string) (sequence : LevelSequence)
    (before after : list Track) (track : Track) :
  assets (host st) !! level_sequence_name = Some (SequenceAsset sequence) ->
  get_master_tracks sequence = before ++ track :: after ->
  Forall (fun t => get_class t <> MovieSceneSubTrack) before ->
  get_class track = MovieSceneSubTrack ->
  get_subsequences level_sequence_name st = (Ret (get_sections track), st).
Proof.
  intros Hasset Htracks Hbefore Hclass.
  unfold get_subsequences, load_asset, query_host, mbind, M_bind.
  rewrite Hasset. cbn. by rewrite Htracks, find_subscene_track_first.
Qed.

Lemma get_subsequences_first_subscene_track_witness :
  get_subsequences "/Game/Shots/Master" (mkState master_editor []) =
    (Ret ["Shot010"; "Shot020"], mkState master_editor []).
Proof.
  apply (get_subsequences_first_subscene_track (mkState master_editor [])
           "/Game/Shots/Master" master_sequence
           [mkTrack 40 MovieSceneCameraCutTrack ["Cut"]]
           [mkTrack 42 MovieSceneSubTrack ["Alt010"]]
           (mkTrack 41 MovieSceneSubTrack ["Shot010"; "Shot020"])).
  - reflexivity.
  - reflexivity.
  - by repeat constructor.
  - reflexivity.
Defined.

(** ** Maya transforms: defaults and short lists *)



(** ** Removing a camera binding *)



Lemma with_sequence_twice (st : state editor) (name : string) (s1 s2 : LevelSequence) :
  with_sequence (with_sequence st name s1) name s2 = with_sequence st name s2.
Proof. unfold with_sequence. cbn. by rewrite insert_insert_eq. Qed.











(** ** Materials *)

Section Materials.
Context `{MaterialHost}.

Lemma material_do_run (c : material_call) (st : state material_editor) :
  material_do c st =
    (Ret tt,
     mkState (mkMaterialEditor (material_calls (host st) ++ [c])
                (next_expression (host st))) (output_log st)).
Proof. reflexivity. Qed.

Lemma create_material_expression_run (material : string) (cls : expression_class)
    (x y : Z) (st : state material_editor) :
  create_material_expression material cls x y st =
    (Ret (next_expression (host st)),
     mkState (mkMaterialEditor
                (material_calls (host st) ++ [CreateMaterialExpression material cls x y])
                (S (next_expression (host st)))) (output_log st)).
Proof. reflexivity. Qed.

Lemma for_each_set_channels (node : nat) (cls : expression_class)
    (channels : list (float * string)) :
  (forall name value, expression_property_error cls name value = None) ->
  forall st : state material_editor,
    for_each channels
      (fun '(color_value, color_channel) =>
         set_expression_property node cls color_channel (MNumber color_value)) st =
      (Ret tt,
       mkState
         (mkMaterialEditor
            (material_calls (host st) ++
               ((fun '(v, channel) => SetExpressionProperty node channel (MNumber v))
                  <$> channels))
            (next_expression (host st))) (output_log st)).
Proof.
  intros Hacc. induction channels as [|[v channel] rest IH]; intros [[calls next] lg].
  - cbn. by rewrite app_nil_r.
  - cbn [for_each]. rewrite bind_run. unfold set_expression_property at 1.
    rewrite Hacc, material_do_run, IH. cbn. by rewrite <- app_assoc.
Qed.

End Materials.

Section Materials.
Context `{MaterialHost}.

(** X19: with an editor that accepts every property, [create_material]
    creates the material and then, for each argument that is not
    [None], one expression: the diffuse texture sample gets at most the
    first three colour values, as R, G and B; the roughness constant
    gets the roughness; the specular constant also gets the roughness
    ([None] when there is none): the value of [specular] itself is
    never handed to the editor. *)
Theorem create_material_calls
    (material_name material_path : string) (diffuse_color : option (list float))
    (roughness specular : option float) (st : state material_editor) :
  (forall cls name value, expression_property_error cls name value = None) ->
  let n0 := next_expression (host st) in
  let n1 := match diffuse_color with Some _ => S n0 | None => n0 end in
  let n2 := match roughness with Some _ => S n1 | None => n1 end in
  let n3 := match specular with Some _ => S n2 | None => n2 end in
  let diffuse_part :=
    match diffuse_color with
    | Some colors => diffuse_calls material_name n0 colors
    | None => []
    end in
  let roughness_part :=
    match roughness with
    | Some r => constant_calls material_name n1 (MNumber r) MP_ROUGHNESS
    | None => []
    end in
  let specular_part :=
    match specular with
    | Some _ =>
        constant_calls material_name n2
          (match roughness with Some r => MNumber r | None => MNone end) MP_SPECULAR
    | None => []
    end in
  create_material material_name material_path diffuse_color roughness specular st =
    (Ret material_name,
     mkState
       (mkMaterialEditor
          (material_calls (host st)
             ++ CreateMaterialAsset material_name material_path
             :: diffuse_part ++ roughness_part ++ specular_part)
          n3)
       (output_log st)) /\
  (forall colors, diffuse_color = Some colors ->
     length diffuse_part = (2 + Nat.min (length colors) 3)%nat).
Proof.
  intros Hacc n0 n1 n2 n3 diffuse_part roughness_part specular_part.
  split.
  - destruct st as [[calls next] lg].
    assert (Hset : forall node cls name value (st : state material_editor),
               set_expression_property node cls name value st =
               material_do (SetExpressionProperty node name value) st).
    { intros. unfold set_expression_property. by rewrite Hacc. }
    unfold create_material.
    subst n0 n1 n2 n3 diffuse_part roughness_part specular_part.
    destruct diffuse_color as [colors|], roughness as [r|], specular as [s|];
      repeat first
        [ rewrite (for_each_set_channels _ MaterialExpressionTextureSample _
                     (Hacc MaterialExpressionTextureSample))
        | rewrite Hset
        | rewrite material_do_run
        | rewrite create_material_expression_run
        | rewrite bind_run
        | progress cbn [mret M_ret] ];
      unfold zip_rgb, diffuse_calls, constant_calls;
      cbn [host material_calls next_expression output_log mret M_ret app];
      repeat first [rewrite <- app_assoc | progress cbn [app]];
      rewrite ?app_nil_r; reflexivity.
  - intros colors ->. subst diffuse_part. unfold diffuse_calls.
    cbn [length]. rewrite length_app, length_fmap, length_zip. cbn [length]. lia.
Qed.

End Materials.

Lemma permissive_material_accepts (cls : expression_class) (name : string)
    (value : material_value) :
  expression_property_error cls name value = None.
Proof. reflexivity. Qed.

Lemma create_material_calls_witness :
  (create_material "M_Wood" "/Game/Materials" None None (Some 0.5%float)
     (mkState (mkMaterialEditor [] 0) [])).1 = Ret "M_Wood" /\
  material_calls
    (host (create_material "M_Wood" "/Game/Materials" None None (Some 0.5%float)
             (mkState (mkMaterialEditor [] 0) [])).2) =
    [CreateMaterialAsset "M_Wood" "/Game/Materials";
     CreateMaterialExpression "M_Wood" MaterialExpressionConstant 0 0;
     SetExpressionProperty 0 "R" MNone;
     ConnectMaterialProperty 0 EmptyString MP_SPECULAR].
Proof.
  destruct (create_material_calls "M_Wood" "/Game/Materials" None None (Some 0.5%float)
              (mkState (mkMaterialEditor [] 0) []) permissive_material_accepts)
    as [Hrun _].
  rewrite Hrun. by split.
Defined.

(** ** The engine version *)

Lemma chars_app (a b : string) :
  String.list_ascii_of_string (a +:+ b) =
    String.list_ascii_of_string a ++ String.list_ascii_of_string b.
Proof. induction a as [|c a IH]; [done|]. cbn. by rewrite <- IH. Qed.

Lemma prefix_app (s r : string) : String.prefix s (s +:+ r) = true.
Proof.
  induction s as [|c s IH]; [by destruct r|].
  change (String c s +:+ r) with (String c (s +:+ r)). cbn [String.prefix].
  destruct (ascii_dec c c); [exact IH | done].
Qed.

Lemma prefix_other_head (c0 x : ascii) (sep' s : string) :
  x <> c0 -> String.prefix (String c0 sep') (String x s) = false.
Proof. intros Hx. cbn. by destruct (ascii_dec c0 x) as [->|]. Qed.

Section Split.
Variables (c0 : ascii) (sep' : string).
Let sep := String c0 sep'.

Lemma py_split_go_skip (passed rest current : string) :
  py_split_go sep (passed +:+ rest) (String.length passed) current =
    py_split_go sep rest 0 current.
Proof.
  induction passed as [|x passed IH]; [done|]. exact IH.
Qed.

Lemma py_split_go_no_sep (a : string) : forall current,
  c0 ∉ String.list_ascii_of_string a ->
  py_split_go sep a 0 current = [current +:+ a].
Proof.
  induction a as [|x a IH]; intros current Ha.
  - cbn [py_split_go]. by rewrite string_app_empty_r.
  - cbn [py_split_go]. cbn in Ha. apply not_elem_of_cons in Ha as [Hx Ha].
    unfold sep. rewrite prefix_other_head by done.
    fold sep. rewrite IH by done. by rewrite string_app_assoc.
Qed.

Lemma py_split_go_sep (a rest : string) : forall current,
  c0 ∉ String.list_ascii_of_string a ->
  py_split_go sep (a +:+ sep +:+ rest) 0 current =
    (current +:+ a) :: py_split_go sep rest 0 EmptyString.
Proof.
  induction a as [|x a IH]; intros current Ha.
  - change (EmptyString +:+ sep +:+ rest) with (String c0 (sep' +:+ rest)).
    cbn [py_split_go].
    change (String c0 (sep' +:+ rest)) with (sep +:+ rest).
    rewrite prefix_app, string_app_empty_r.
    change (String.length sep - 1)%nat with (String.length sep' - 0)%nat.
    by rewrite Nat.sub_0_r, py_split_go_skip.
  - change (String x a +:+ sep +:+ rest) with (String x (a +:+ sep +:+ rest)).
    cbn [py_split_go]. cbn in Ha. apply not_elem_of_cons in Ha as [Hx Ha].
    unfold sep at 1. rewrite prefix_other_head by done.
    rewrite IH by done. by rewrite string_app_assoc.
Qed.

End Split.

(** [split] undoes [join] on pieces that do not hold the separator. *)
Lemma py_split_join (c0 : ascii) (pieces : list string) :
  pieces <> [] ->
  Forall (fun p => c0 ∉ String.list_ascii_of_string p) pieces ->
  py_split (String c0 EmptyString) (py_join (String c0 EmptyString) pieces) = pieces.
Proof.
  intros Hne Hall. unfold py_split.
  induction Hall as [|p rest Hp Hrest IH]; [done|].
  destruct rest as [|p2 rest].
  - cbn [py_join]. by rewrite py_split_go_no_sep.
  - change (py_join (String c0 EmptyString) (p :: p2 :: rest))
      with (p +:+ String c0 EmptyString +:+ py_join (String c0 EmptyString) (p2 :: rest)).
    rewrite py_split_go_sep by done. by rewrite IH.
Qed.

Lemma map_result_Forall2 {A B} (f : A -> result B) (l : list A) (ys : list B) :
  Forall2 (fun x y => f x = Ret y) l ys -> map_result f l = Ret ys.
Proof.
  induction 1 as [|x y l ys Hxy _ IH]; [done|].
  cbn [map_result]. by rewrite Hxy, IH.
Qed.

Lemma chars_join_free (c : ascii) (pieces : list string) :
  c <> "."%char ->
  Forall (fun p => c ∉ String.list_ascii_of_string p) pieces ->
  c ∉ String.list_ascii_of_string (py_join "." pieces).
Proof.
  intros Hc Hall. induction Hall as [|p rest Hp Hrest IH].
  - by apply not_elem_of_nil.
  - destruct rest as [|p2 rest]; [done|].
    change (py_join "." (p :: p2 :: rest)) with (p +:+ "." +:+ py_join "." (p2 :: rest)).
    rewrite !chars_app, !not_elem_of_app. split; [done|]. split; [|done].
    cbn. rewrite not_elem_of_cons. split; [done | by apply not_elem_of_nil].
Qed.

(** X20: for an engine version name of the form
    [a.b. ... .c-build+++branch], whose dotted pieces hold none of
    ['.'], ['-'], ['+'] and whose build holds no ['-'] and no ['+'],
    [get_unreal_version] returns the integers of the dotted pieces, in
    order, followed by the integer of the build; whatever follows
    ['+++'] is ignored. *)
Theorem get_unreal_version_parses
    {W : Type} `{EngineHost W} (st : state W) (pieces : list string)
    (build branch : string) (numbers : list Z) (extra : Z) :
  get_engine_version (host st) =
    py_join "." pieces +:+ "-" +:+ build +:+ "+++" +:+ branch ->
  pieces <> [] ->
  Forall (fun p => forall c, c ∈ ["."; "-"; "+"]%char ->
                             c ∉ String.list_ascii_of_string p) pieces ->
  (forall c, c ∈ ["-"; "+"]%char -> c ∉ String.list_ascii_of_string build) ->
  Forall2 (fun p n => py_int p = Ret n) pieces numbers ->
  py_int build = Ret extra ->
  get_unreal_version st = (Ret (numbers ++ [extra]), st).
Proof.
  intros Hname Hne Hpieces Hbuild Hnumbers Hextra.
  assert (Hfree : forall c, c ∈ ["."; "-"; "+"]%char ->
            Forall (fun p => c ∉ String.list_ascii_of_string p) pieces).
  { intros c Hc. eapply Forall_impl; [exact Hpieces|]. intros p Hp. by apply Hp. }
  set (main := py_join "." pieces +:+ "-" +:+ build).
  assert (Hplus : "+"%char ∉ String.list_ascii_of_string main).
  { unfold main. rewrite !chars_app, !not_elem_of_app. split_and!.
    - apply chars_join_free; [done|]. apply Hfree. set_solver.
    - cbn. rewrite not_elem_of_cons. split; [done | by apply not_elem_of_nil].
    - apply Hbuild. set_solver. }
  assert (Hminus : "-"%char ∉ String.list_ascii_of_string (py_join "." pieces)).
  { apply chars_join_free; [done|]. apply Hfree. set_solver. }
  assert (Hsplit1 : py_split "+++" (get_engine_version (host st)) =
                    main :: py_split "+++" branch).
  { rewrite Hname. unfold py_split.
    replace (py_join "." pieces +:+ "-" +:+ build +:+ "+++" +:+ branch)
      with (main +:+ "+++" +:+ branch)
      by (unfold main; by rewrite !string_app_assoc).
    by rewrite (py_split_go_sep "+"%char "++" main branch EmptyString Hplus). }
  assert (Hsplit2 : py_split "-" main = [py_join "." pieces; build]).
  { unfold py_split, main.
    rewrite (py_split_go_sep "-"%char EmptyString _ build EmptyString Hminus).
    rewrite (py_split_go_no_sep "-"%char EmptyString build) by (apply Hbuild; set_solver).
    done. }
  assert (Hsplit3 : py_split "." (py_join "." pieces) = pieces).
  { apply (py_split_join "."%char); [done|]. apply Hfree. set_solver. }
  unfold get_unreal_version, get_unreal_version_name, query_host, lift_result.
  rewrite bind_run, bind_run, Hsplit1.
  rewrite (getitem_nonneg _ 0 main) by done.
  rewrite bind_run, Hsplit2.
  assert (Py.getitem [py_join "." pieces; build] 0 = Ret (py_join "." pieces)) as ->
    by reflexivity.
  rewrite bind_run.
  assert (Py.getitem [py_join "." pieces; build] (-1) = Ret build) as -> by reflexivity.
  rewrite bind_run, Hsplit3, (map_result_Forall2 _ _ _ Hnumbers).
  by rewrite bind_run, Hextra.
Qed.

Lemma get_unreal_version_parses_witness :
  get_unreal_version (mkState "5.0.3-20979098+++UE5+Release-5.0" []) =
    (Ret [5; 0; 3; 20979098], mkState "5.0.3-20979098+++UE5+Release-5.0" []).
Proof.
  apply (get_unreal_version_parses (mkState "5.0.3-20979098+++UE5+Release-5.0" [])
           ["5"; "0"; "3"] "20979098" "UE5+Release-5.0" [5; 0; 3] 20979098).
  - reflexivity.
  - discriminate.
  - repeat constructor; intros c Hc; apply (bool_decide_unpack _); revert c Hc;
      apply Forall_forall; repeat constructor; by vm_compute.
  - intros c Hc. apply (bool_decide_unpack _). revert c Hc.
    apply Forall_forall. repeat constructor; by vm_compute.
  - repeat constructor.
  - reflexivity.
Defined.

(** ** Assets by path *)

Lemma getitem_last {A} (l : list A) (x : A) :
  Py.getitem (l ++ [x]) (-1) = Ret x.
Proof.
  unfold Py.getitem. rewrite length_app. cbn [length].
  set (n := Z.of_nat (length l + 1)).
  assert (Hn : n = Z.of_nat (length l) + 1) by (unfold n; lia).
  destruct (Z.ltb_spec (-1) 0); [|lia].
  assert ((0 <=? n + -1) && (n + -1 <? n) = true) as ->.
  { apply andb_true_intro; split; [apply Z.leb_le | apply Z.ltb_lt]; lia. }
  replace (Z.to_nat (n + -1)) with (length l) by lia.
  by rewrite lookup_app_r, Nat.sub_diag by lia.
Qed.

(** The last piece of a split is what follows the last separator. *)
Lemma py_split_go_last (c0 : ascii) (a b : string) : forall current,
  c0 ∉ String.list_ascii_of_string b ->
  exists pieces,
    py_split_go (String c0 EmptyString) (a +:+ String c0 EmptyString +:+ b) 0 current =
      pieces ++ [b].
Proof.
  induction a as [|x a IH]; intros current Hb.
  - change (EmptyString +:+ String c0 EmptyString +:+ b) with (String c0 b).
    cbn [py_split_go].
    change (String c0 b) with (String c0 EmptyString +:+ b) at 1.
    rewrite prefix_app. cbn [String.length Nat.sub].
    rewrite (py_split_go_no_sep c0 EmptyString b EmptyString Hb).
    by exists [current].
  - change (String x a +:+ String c0 EmptyString +:+ b)
      with (String x (a +:+ String c0 EmptyString +:+ b)).
    cbn [py_split_go].
    destruct (String.prefix _ _).
    + cbn [String.length Nat.sub].
      destruct (IH EmptyString Hb) as [pieces ->]. by exists (current :: pieces).
    + apply IH, Hb.
Qed.

(** X21: [get_asset] returns [None], loading nothing, when the registry
    has no data for the path; otherwise it loads the object path that
    follows the last space of the asset's full name. *)
Theorem get_asset_loads_last_word
    {W Obj : Type} `{RegistryHost W Obj} (asset_path : string) (only_on_disk : bool)
    (st : state W) :
  (get_asset_by_object_path asset_path only_on_disk (host st) = None ->
     get_asset asset_path only_on_disk st = (Ret None, st)) /\
  (forall class_name path,
     get_asset_by_object_path asset_path only_on_disk (host st)
       = Some (class_name +:+ " " +:+ path) ->
     " "%char ∉ String.list_ascii_of_string path ->
     get_asset asset_path only_on_disk st =
       (Ret (registry_load_asset path (host st)), st)).
Proof.
  split.
  - intros Hnone. unfold get_asset, get_asset_data, query_host.
    by rewrite bind_run, Hnone.
  - intros class_name path Hdata Hpath.
    unfold get_asset, get_asset_data, query_host, lift_result, py_split.
    rewrite bind_run, Hdata.
    destruct (py_split_go_last " "%char class_name path EmptyString Hpath)
      as [pieces Hsplit].
    change (String " "%char EmptyString) with " " in Hsplit.
    by rewrite bind_run, Hsplit, getitem_last.
Qed.

Lemma get_asset_loads_last_word_witness :
  get_asset "/Game/Props/Chair.Chair" false
    (mkState ({["/Game/Props/Chair.Chair" := "StaticMesh"]} : gmap string string) []) =
    (Ret (Some "/Game/Props/Chair.Chair"),
     mkState ({["/Game/Props/Chair.Chair" := "StaticMesh"]} : gmap string string) []).
Proof.
  assert (Hpath : " "%char ∉ String.list_ascii_of_string "/Game/Props/Chair.Chair")
    by (apply (bool_decide_unpack _); by vm_compute).
  assert (Hdata :
    get_asset_by_object_path "/Game/Props/Chair.Chair" false
      ({["/Game/Props/Chair.Chair" := "StaticMesh"]} : gmap string string)
    = Some ("StaticMesh" +:+ " " +:+ "/Game/Props/Chair.Chair")) by reflexivity.
  by rewrite (proj2 (get_asset_loads_last_word (Obj := string)
                       "/Game/Props/Chair.Chair" false
                       (mkState ({["/Game/Props/Chair.Chair" := "StaticMesh"]}
                                   : gmap string string) []))
                "StaticMesh" "/Game/Props/Chair.Chair" Hdata Hpath).
Defined.

(** ** Calling the task builder again with the same options *)

Lemma dict_remove_absent (key : string) (d : dict) :
  dict_get key d = None -> dict_remove key d = d.
Proof.
  unfold dict_remove. induction d as [|[k v] d IH]; [done|].
  cbn [dict_get]. destruct (String.eqb_spec key k) as [->|Hk]; [done|].
  intros Hd. rewrite filter_cons_True by (cbn; congruence). by rewrite IH.
Qed.

Section Tasks.
Context `{Unreal}.

(** X22: the options dictionary is used up by the first call.  When a
    caller builds a second import task from the same dictionary (still
    not empty after the first call), the second task imports a static
    mesh and carries no skeletal data, whatever ['mesh_type_to_import']
    and ['skeletal_mesh_import_data'] said before the first call; its
    other options are those of the first task. *)
Theorem generate_fbx_import_task_second_call
    (filename destination_path : string) (destination_name : option string)
    (replace_existing automated save : bool) (l : nat) (d : dict)
    (st : state fbx_host) :
  heap (host st) !! l = Some d ->
  let sk :=
    match dict_get "skeletal_mesh_import_data" d with Some v => v | None => VDict [] end in
  let d2 := dict_remove "skeletal_mesh_import_data" (dict_remove "mesh_type_to_import" d) in
  d2 <> [] ->
  refuses_with_exceptions FbxImportUI_class d2 ->
  (forall items, sk = VDict items ->
     refuses_with_exceptions FbxSkeletalMeshImportData_class items) ->
  (truthy sk = true -> exists items, sk = VDict items) ->
  exists task1 st1,
    generate_fbx_import_task filename destination_path destination_name
      replace_existing automated save (Some l) st = (Ret task1, st1) /\
    import_properties (task_options task1) = filter (settable FbxImportUI_class) d2 /\
    (generate_fbx_import_task filename destination_path destination_name
       replace_existing automated save (Some l) st1).1 =
      Ret (mkImportTask filename destination_path (task_destination_name task1)
             replace_existing automated save
             (mkFbxImportUI (filter (settable FbxImportUI_class) d2) None
                FBXIT_STATIC_MESH)) /\
    heap (host (generate_fbx_import_task filename destination_path destination_name
                  replace_existing automated save (Some l) st1).2) !! l = Some d2.
Proof.
  intros Hl sk d2 Hd2 Hui Hsk Hdict.
  assert (Hd : d <> []) by (intros ->; by apply Hd2).
  assert (Hk1 : dict_get "mesh_type_to_import" d2 = None).
  { unfold d2. rewrite dict_get_remove_ne by done. apply dict_get_remove_eq. }
  assert (Hk2 : dict_get "skeletal_mesh_import_data" d2 = None)
    by apply dict_get_remove_eq.
  assert (Hsame : dict_remove "skeletal_mesh_import_data"
                    (dict_remove "mesh_type_to_import" d2) = d2).
  { by rewrite (dict_remove_absent "mesh_type_to_import" d2),
      (dict_remove_absent "skeletal_mesh_import_data" d2). }
  unfold generate_fbx_import_task.
  rewrite (generate_fbx_import_task_with_run _ _ _ _ _ _ _ (Some l) st l d);
    [ | intros ? [= <-]; by rewrite Hl
      | by rewrite (chosen_options_caller _ l d)
      | done
      | done
      | unfold dict_pop; cbn [fst]; rewrite dict_get_remove_ne by done; apply Hsk ].
  unfold dict_pop. cbn [fst]. rewrite dict_get_remove_ne by done. fold sk d2.
  assert (Hsecond : forall lg,
    let st1 := mkState (mkFbxHost (<[l := d2]> (heap (host st))) (export_runs (host st)))
                 lg in
    generate_fbx_import_task_with DEFAULT_FBX_IMPORT_OPTIONS filename destination_path
      destination_name replace_existing automated save (Some l) st1 =
      (Ret (mkImportTask filename destination_path
              (match destination_name with
               | Some n => if str_truthy n then Some n else None
               | None => None
               end)
              replace_existing automated save
              (mkFbxImportUI (filter (settable FbxImportUI_class) d2) None
                 FBXIT_STATIC_MESH)),
       mkState (mkFbxHost (<[l := d2]> (heap (host st))) (export_runs (host st)))
         (lg ++ (refusal_warning "Was not possible to set FBX Import property: "
                   <$> filter (fun i => ~ settable FbxImportUI_class i) d2)))).
  { intros lg st1.
    assert (Hl1 : heap (host st1) !! l = Some d2) by apply lookup_insert_eq.
    rewrite (generate_fbx_import_task_with_run _ _ _ _ _ _ _ (Some l) st1 l d2);
      [ | intros ? [= <-]; by rewrite Hl1
        | by rewrite (chosen_options_caller _ l d2)
        | done
        | by rewrite Hsame
        | unfold dict_pop; cbn [fst];
          rewrite (dict_remove_absent "mesh_type_to_import" d2), Hk2 by done;
          intros items [= <-] ? ? ? Hin; by apply elem_of_nil in Hin ].
    unfold dict_pop. cbn [fst].
    rewrite (dict_remove_absent "mesh_type_to_import" d2) by done.
    rewrite Hk1, Hk2, (dict_remove_absent "skeletal_mesh_import_data" d2) by done.
    cbn [truthy length Nat.eqb negb]. subst st1.
    cbn [host heap export_runs output_log]. by rewrite insert_insert_eq. }
  destruct (truthy sk) eqn:Htruthy.
  - destruct (Hdict eq_refl) as [items Hitems]. rewrite Hitems.
    eexists _, _. split; [done|]. split; [done|].
    cbn [host heap export_runs].
    rewrite Hsecond. cbn [fst snd host heap task_destination_name].
    split; [done | apply lookup_insert_eq].
  - eexists _, _. split; [done|]. split; [done|].
    cbn [host heap export_runs].
    rewrite Hsecond. cbn [fst snd host heap task_destination_name].
    split; [done | apply lookup_insert_eq].
Qed.

End Tasks.

Lemma generate_fbx_import_task_second_call_witness :
  exists task1 st1,
    generate_fbx_import_task "C:/rigs/hero.fbx" "/Game/Hero" None true true true
      (Some 7%nat) (mkState caller_host []) = (Ret task1, st1) /\
    mesh_type_to_import (task_options task1) = FBXIT_SKELETAL_MESH /\
    (generate_fbx_import_task "C:/rigs/hero.fbx" "/Game/Hero" None true true true
       (Some 7%nat) st1).1 =
      Ret (mkImportTask "C:/rigs/hero.fbx" "/Game/Hero" None true true true
             (mkFbxImportUI [("import_materials", VBool false)] None FBXIT_STATIC_MESH)).
Proof.
  assert (Hl : heap caller_host !! 7%nat = Some caller_options) by reflexivity.
  assert (Hd2 : dict_remove "skeletal_mesh_import_data"
                  (dict_remove "mesh_type_to_import" caller_options) <> [])
    by (by vm_compute).
  destruct (generate_fbx_import_task_second_call
              "C:/rigs/hero.fbx" "/Game/Hero" None true true true
              7%nat caller_options (mkState caller_host []) Hl Hd2
              (permissive_never_refuses _ _)
              (fun items _ => permissive_never_refuses _ items)
              (fun _ => ex_intro _ _ eq_refl))
    as (task1 & st1 & Hfirst & _ & Hsecond & _).
  exists task1, st1. split; [done|]. split.
  - assert (Hrun : (generate_fbx_import_task "C:/rigs/hero.fbx" "/Game/Hero" None
                      true true true (Some 7%nat) (mkState caller_host [])).1
                   = Ret task1) by (by rewrite Hfirst).
    vm_compute in Hrun. by injection Hrun as <-.
  - rewrite Hsecond.
    assert (Hname : task_destination_name task1 = None).
    { assert (Hrun : (generate_fbx_import_task "C:/rigs/hero.fbx" "/Game/Hero" None
                        true true true (Some 7%nat) (mkState caller_host [])).1
                     = Ret task1) by (by rewrite Hfirst).
      vm_compute in Hrun. by injection Hrun as <-. }
    by rewrite Hname.
Defined.
